(** * Verification of the retrieval-and-answer service (src/app.py)

    The development embeds the Python module [app.py] in Rocq:

    - Python [str] values are [string]s; a character is its code point
      (code points below 256), and [str.split()] / [str.join] are
      written out as CPython computes them;
    - a Python [dict] is an insertion-ordered association list;
    - the calls into the [functions] package, [logging] and [print] are
      events of a small free monad [Prog], with Python exceptions as an
      explicit [Raise] and [try ... except Exception] as [try_except];
    - the events are interpreted over a [World] by a [Collaborators]
      instance that stands for the code outside [app.py]. *)

From Stdlib Require Import List ZArith Lia Bool Ascii String.
From Stdlib Require Import Numbers.DecimalString.
Import ListNotations.

Open Scope string_scope.
Open Scope list_scope.

(** ** Python strings *)

Module PyStr.

(** [str.isspace] on one character.  Below code point 256 CPython's
    [Py_UNICODE_ISSPACE] holds for 0x09-0x0D, 0x1C-0x1F, 0x20, 0x85 and
    0xA0. *)
Definition isspace (c : ascii) : bool :=
  let n := N_of_ascii c in
  ((9 <=? n) && (n <=? 13) || (28 <=? n) && (n <=? 32)
   || (n =? 133) || (n =? 160))%N.

(** The token collected so far is emitted when it is not empty. *)
Definition flush (tok : string) : list string :=
  match tok with
  | EmptyString => []
  | _ => [tok]
  end.

(** The scanning loop of [str.split()] without arguments: runs of
    whitespace separate the tokens, leading and trailing whitespace
    produce nothing.  [tok] holds the characters of the token being
    read. *)
Fixpoint split_from (tok s : string) : list string :=
  match s with
  | EmptyString => flush tok
  | String c s' =>
      if isspace c then flush tok ++ split_from EmptyString s'
      else split_from (tok ++ String c EmptyString)%string s'
  end.

(** [s.split()] *)
Definition split (s : string) : list string := split_from EmptyString s.

(** [sep.join(l)] *)
Definition join (sep : string) (l : list string) : string :=
  String.concat sep l.

(** [l[:n]] for a Python integer [n]: a negative [n] counts from the
    end of the list. *)
Definition slice_to {A : Type} (l : list A) (n : Z) : list A :=
  if (n <? 0)%Z then firstn (Z.to_nat (Z.of_nat (List.length l) + n)) l
  else firstn (Z.to_nat n) l.

(** [len(l)] as a Python integer. *)
Definition len {A : Type} (l : list A) : Z := Z.of_nat (List.length l).

(** [str(n)] for a non-negative integer. *)
Definition str_of_nat (n : nat) : string :=
  NilZero.string_of_uint (Nat.to_uint n).

(** The newline character and the one-character strings used below. *)
Definition newline : string := String "010"%char EmptyString.
Definition space : string := " ".

(** A token: a non-empty string without whitespace. *)
Fixpoint no_space (s : string) : bool :=
  match s with
  | EmptyString => true
  | String c s' => negb (isspace c) && no_space s'
  end.

Definition is_token (t : string) : Prop :=
  t <> EmptyString /\ no_space t = true.

(** [a] is a prefix of [b], as strings. *)
Definition is_prefix (a b : string) : Prop := exists r, b = (a ++ r)%string.

End PyStr.

(** ** The context budget: [truncate_context] *)

(** [def truncate_context(context, max_tokens)] *)
Definition truncate_context (context : string) (max_tokens : Z) : string :=
  let tokens := PyStr.split context in
  let tokens :=
    if (PyStr.len tokens >? max_tokens)%Z
    then PyStr.slice_to tokens max_tokens
    else tokens in
  PyStr.join " " tokens.

(** ** Python dictionaries *)

Module PyDict.

(** A [dict] with [str] keys: the items in insertion order. *)
Definition dict (V : Type) : Type := list (string * V).

(** [d[k] = v]: an existing key keeps its position and takes the new
    value, a new key is appended. *)
Fixpoint setitem {V : Type} (d : dict V) (k : string) (v : V) : dict V :=
  match d with
  | [] => [(k, v)]
  | (k', v') :: d' =>
      if String.eqb k' k then (k', v) :: d'
      else (k', v') :: setitem d' k v
  end.

(** [d.keys()] and [d.values()], in insertion order. *)
Definition keys {V : Type} (d : dict V) : list string := map fst d.
Definition values {V : Type} (d : dict V) : list V := map snd d.

(** [d.get(k)] *)
Fixpoint get {V : Type} (d : dict V) (k : string) : option V :=
  match d with
  | [] => None
  | (k', v') :: d' => if String.eqb k' k then Some v' else get d' k
  end.

(** What [setitem] does to the list of keys. *)
Definition add_key (seen : list string) (k : string) : list string :=
  if existsb (String.eqb k) seen then seen else seen ++ [k].

(** [y] is not among the keys seen so far. *)
Definition unseen (seen : list string) (y : string) : bool :=
  negb (existsb (String.eqb y) seen).

(** [{key(x): x for x in l}]: the items are set from left to right. *)
Definition comprehension {V : Type} (key : V -> string) (l : list V) : dict V :=
  fold_left (fun d x => setitem d (key x) x) l [].

End PyDict.

(** ** Documents and context assembly *)

(** A retrieved document: the passage text and its metadata. *)
Record Document : Type := mkDocument {
  page_content : string;
  metadata : list (string * string)
}.

(** [list({doc.page_content: doc for doc in all_retrieved_docs}.values())] *)
Definition dedup_docs (all_retrieved_docs : list Document) : list Document :=
  PyDict.values (PyDict.comprehension page_content all_retrieved_docs).

(** ["\n".join([doc.page_content for doc in all_retrieved_docs])] *)
Definition join_contents (all_retrieved_docs : list Document) : string :=
  PyStr.join PyStr.newline (map page_content all_retrieved_docs).

(** The passage list and the context string of lines 168-172. *)
Definition context_passages (all_retrieved_docs : list Document) : list string :=
  map page_content (dedup_docs all_retrieved_docs).

Definition assemble_context (all_retrieved_docs : list Document) : string :=
  join_contents (dedup_docs all_retrieved_docs).

(** The specification's reading of deduplication: a passage text is kept
    where it occurs first and dropped everywhere after. *)
Fixpoint first_occurrences (l : list string) : list string :=
  match l with
  | [] => []
  | x :: r => x :: filter (fun y => negb (String.eqb y x)) (first_occurrences r)
  end.

(** ** [json.dumps] on a dictionary of strings *)

Module PyJson.

(** The characters [\] and the double quote, by code point. *)
Definition backslash : ascii := "092"%char.
Definition dquote : ascii := "034"%char.

Definition hex_digit (n : N) : ascii :=
  if (n <? 10)%N then ascii_of_N (48 + n) else ascii_of_N (87 + n).

(** ['\\u{0:04x}'.format(n)] for a code point below 256. *)
Definition escape_u (n : N) : string :=
  String backslash (String "u" (String "0" (String "0"
    (String (hex_digit (n / 16)) (String (hex_digit (n mod 16)) EmptyString))))).

(** One character of [py_encode_basestring_ascii] (the default
    [ensure_ascii=True]): the short escapes of [ESCAPE_DCT], the
    printable ASCII characters as they are, [\uXXXX] for the rest. *)
Definition escape_char (c : ascii) : string :=
  let n := N_of_ascii c in
  if (n =? 34)%N then String backslash (String dquote EmptyString)
  else if (n =? 92)%N then String backslash (String backslash EmptyString)
  else if (n =? 10)%N then String backslash (String "n" EmptyString)
  else if (n =? 13)%N then String backslash (String "r" EmptyString)
  else if (n =? 9)%N then String backslash (String "t" EmptyString)
  else if (n =? 8)%N then String backslash (String "b" EmptyString)
  else if (n =? 12)%N then String backslash (String "f" EmptyString)
  else if ((32 <=? n) && (n <=? 126))%N then String c EmptyString
  else escape_u n.

Fixpoint escape (s : string) : string :=
  match s with
  | EmptyString => EmptyString
  | String c s' => (escape_char c ++ escape s')%string
  end.

Definition quote : string := String dquote EmptyString.

(** [json.dumps(s)] for a string. *)
Definition dumps_str (s : string) : string :=
  (quote ++ escape s ++ quote)%string.

(** [json.dumps(d)] for a dictionary of strings, with the default
    separators [", "] and [": "]. *)
Definition dumps (d : PyDict.dict string) : string :=
  ("{" ++ PyStr.join ", "
      (map (fun kv => dumps_str (fst kv) ++ ": " ++ dumps_str (snd kv)) d)
   ++ "}")%string.

(** The text of one member. *)
Definition member (kv : string * string) : string :=
  (dumps_str (fst kv) ++ ": " ++ dumps_str (snd kv))%string.

(** *** Reading a JSON object of strings

    The reader states what the text produced by [dumps] denotes: the
    grammar of RFC 8259 restricted to one object whose members are
    strings, for code points below 256. *)

Definition hex_value (c : ascii) : option N :=
  let n := N_of_ascii c in
  if ((48 <=? n) && (n <=? 57))%N then Some (n - 48)%N
  else if ((97 <=? n) && (n <=? 102))%N then Some (n - 87)%N
  else if ((65 <=? n) && (n <=? 70))%N then Some (n - 55)%N
  else None.

(** The character denoted by [\c]. *)
Definition unescape_char (c : ascii) : option ascii :=
  let n := N_of_ascii c in
  if (n =? 34)%N then Some dquote
  else if (n =? 92)%N then Some backslash
  else if (n =? 47)%N then Some "/"%char
  else if (n =? 110)%N then Some "010"%char
  else if (n =? 114)%N then Some "013"%char
  else if (n =? 116)%N then Some "009"%char
  else if (n =? 98)%N then Some "008"%char
  else if (n =? 102)%N then Some "012"%char
  else None.

Definition push_char (c : ascii) (o : option (string * string))
    : option (string * string) :=
  match o with
  | Some (t, rest) => Some (String c t, rest)
  | None => None
  end.

(** The characters of a string literal after its opening quote, up to
    the closing quote; the text after it is returned as well. *)
Fixpoint read_string (s : string) : option (string * string) :=
  match s with
  | EmptyString => None
  | String c s1 =>
      if Ascii.eqb c dquote then Some (EmptyString, s1)
      else if Ascii.eqb c backslash then
        match s1 with
        | EmptyString => None
        | String e s2 =>
            if Ascii.eqb e "u" then
              match s2 with
              | String h1 (String h2 (String h3 (String h4 s3))) =>
                  match hex_value h1, hex_value h2,
                        hex_value h3, hex_value h4 with
                  | Some a, Some b, Some c', Some d =>
                      let n := (((a * 16 + b) * 16 + c') * 16 + d)%N in
                      if (n <? 256)%N
                      then push_char (ascii_of_N n) (read_string s3)
                      else None
                  | _, _, _, _ => None
                  end
              | _ => None
              end
            else
              match unescape_char e with
              | Some ch => push_char ch (read_string s2)
              | None => None
              end
        end
      else if (N_of_ascii c <? 32)%N then None
      else push_char c (read_string s1)
  end.

Definition is_ws (c : ascii) : bool :=
  let n := N_of_ascii c in
  ((n =? 32) || (n =? 9) || (n =? 10) || (n =? 13))%N.

Fixpoint skip_ws (s : string) : string :=
  match s with
  | EmptyString => EmptyString
  | String c s' => if is_ws c then skip_ws s' else s
  end.

(** The next character after optional whitespace must be [c]. *)
Definition expect (c : ascii) (s : string) : option string :=
  match skip_ws s with
  | EmptyString => None
  | String c' s' => if Ascii.eqb c' c then Some s' else None
  end.

(** One member [key: value] and, after a comma, the members that
    follow, up to the closing brace. *)
Fixpoint read_members (fuel : nat) (s : string)
    : option (PyDict.dict string * string) :=
  match fuel with
  | O => None
  | S fuel' =>
      match expect dquote s with
      | None => None
      | Some s1 =>
      match read_string s1 with
      | None => None
      | Some (k, s2) =>
      match expect ":" s2 with
      | None => None
      | Some s3 =>
      match expect dquote s3 with
      | None => None
      | Some s4 =>
      match read_string s4 with
      | None => None
      | Some (v, s5) =>
      match skip_ws s5 with
      | EmptyString => None
      | String c s6 =>
          if Ascii.eqb c "}" then Some ([(k, v)], s6)
          else if Ascii.eqb c "," then
            match read_members fuel' s6 with
            | Some (d, rest) => Some ((k, v) :: d, rest)
            | None => None
            end
          else None
      end end end end end end
  end.

(** The members of the object that the whole text denotes. *)
Definition loads (s : string) : option (PyDict.dict string) :=
  match expect "{" s with
  | None => None
  | Some s1 =>
      match skip_ws s1 with
      | EmptyString => None
      | String c s2 =>
          if Ascii.eqb c "}"
          then match skip_ws s2 with
               | EmptyString => Some []
               | _ => None
               end
          else match read_members (String.length s) s1 with
               | Some (d, rest) =>
                   match skip_ws rest with
                   | EmptyString => Some d
                   | _ => None
                   end
               | None => None
               end
      end
  end.

End PyJson.

(** ** Effects: exceptions, collaborator calls, logging *)

(** A Python exception caught by [except Exception]; [str(e)] is its
    message. *)
Inductive exn : Type := Exception (msg : string).

Definition str_exn (e : exn) : string := let (msg) := e in msg.

(** [KeyError(k)]: its [str] is the [repr] of the key. *)
Definition KeyError (k : string) : exn := Exception ("'" ++ k ++ "'")%string.

(** A call either raises or returns a value. *)
Definition Outcome (A : Type) : Type := (exn + A)%type.

Inductive Level : Type := DEBUG | INFO | WARNING | ERROR.

(** What [print] is given: a string or a list of strings. *)
Inductive PyVal : Type :=
| VStr (s : string)
| VList (l : list string).

(** What an endpoint hands to the web framework: a plain dictionary
    (sent with status 200) or a [JSONResponse] with its status code. *)
Inductive HttpResult : Type :=
| Body (content : PyDict.dict string)
| JSONResponse (status_code : Z) (content : PyDict.dict string).

(** The opaque objects that the [functions] package hands out. *)
Class Handles : Type := {
  Client : Type;
  VectorStore : Type;
  Retriever : Type;
  Chain : Type
}.

(** The process state outside [app.py]: the environment of the
    collaborators (database, document directories, model service) and
    the vector store persisted under [data/static]. *)
Record Store (Env VS : Type) : Type := mkStore {
  w_env : Env;
  w_index : option VS
}.
Arguments mkStore {Env VS} _ _.
Arguments w_env {Env VS} _.
Arguments w_index {Env VS} _.

Section Effects.

Context {H : Handles}.

(** The calls [app.py] makes, indexed by the type of their result. *)
Inductive Event : Type -> Type :=
| Logging (level : Level) (msg : string) : Event unit
| Print (args : list PyVal) : Event unit
| Setup_supabase_client : Event Client
| Fetch_data_from_database_and_save (client : Client) : Event unit
| Load_local_documents (path : string) : Event (list Document)
| Create_vector_store (docs : list Document) : Event VectorStore
| Load_vector_store (path : string) : Event VectorStore
| Chunk_input_message (text : string) : Event (list string)
| As_retriever (vector_store : VectorStore) (search_type : string) (k : Z)
    : Event Retriever
| Retriever_invoke (retriever : Retriever) (chunk : string)
    : Event (list Document)
| Create_chain (vector_store : VectorStore) : Event Chain
| Chain_invoke (chain : Chain) (input context : string)
    : Event (PyDict.dict string)
| Push_data_to_database (client : Client) (question answer : string)
    : Event unit.

(** Programs: return, raise, or make a call and continue with its
    outcome. *)
Inductive Prog (A : Type) : Type :=
| Ret (a : A)
| Raise (e : exn)
| Vis {X : Type} (ev : Event X) (k : Outcome X -> Prog A).

Arguments Ret {A} a.
Arguments Raise {A} e.
Arguments Vis {A X} ev k.

Fixpoint bind {A B : Type} (p : Prog A) (f : A -> Prog B) : Prog B :=
  match p with
  | Ret a => f a
  | Raise e => Raise e
  | Vis ev k => Vis ev (fun r => bind (k r) f)
  end.

(** [try: p except Exception as e: handler(e)] *)
Fixpoint try_except {A : Type} (p : Prog A) (handler : exn -> Prog A) : Prog A :=
  match p with
  | Ret a => Ret a
  | Raise e => handler e
  | Vis ev k => Vis ev (fun r => try_except (k r) handler)
  end.

(** A call whose exception propagates. *)
Definition call {X : Type} (ev : Event X) : Prog X :=
  Vis ev (fun r => match r with inl e => Raise e | inr x => Ret x end).

End Effects.

Arguments Ret {H A} a.
Arguments Raise {H A} e.
Arguments Vis {H A X} ev k.

Declare Scope prog_scope.
Delimit Scope prog_scope with prog.
Notation "x <- p ;; q" := (bind p (fun x => q))
  (at level 61, p at next level, right associativity) : prog_scope.
Notation "p ;; q" := (bind p (fun _ => q))
  (at level 61, right associativity) : prog_scope.
Open Scope prog_scope.

(** ** The module [app.py] *)

Section App.

Context {H : Handles}.

Definition logging_info (msg : string) : Prog unit := call (Logging INFO msg).
Definition logging_warning (msg : string) : Prog unit := call (Logging WARNING msg).
Definition logging_error (msg : string) : Prog unit := call (Logging ERROR msg).
Definition print (args : list PyVal) : Prog unit := call (Print args).

(** [def update_vector_store()], lines 62-79.  The [return] of the
    empty case leaves the [try] block, so the rebuild sits in the other
    branch. *)
Definition update_vector_store : Prog unit :=
  try_except
    (logging_info "Starting vector store update..." ;;
     client <- call Setup_supabase_client ;;
     call (Fetch_data_from_database_and_save client) ;;
     local_docs <- call (Load_local_documents "data/opendata") ;;
     database_docs <- call (Load_local_documents "data/inputdata") ;;
     let combined_docs := local_docs ++ database_docs in
     match combined_docs with
     | [] =>
         logging_warning "No documents found for vector store update." ;;
         Ret tt
     | _ :: _ =>
         vector_store <- call (Create_vector_store combined_docs) ;;
         logging_info "Vectorstore updated successfully"
     end)
    (fun e =>
       logging_error ("Failed to update vector store: " ++ str_exn e)%string).

(** A job of the background scheduler: the callable and its trigger. *)
Record Job : Type := mkJob {
  job_func : Prog unit;
  job_trigger : string;
  job_days : Z
}.

(** [scheduler.add_job(update_vector_store, 'interval', days=1)], the
    only job that is added (lines 82-84). *)
Definition scheduler_jobs : list Job :=
  [mkJob update_vector_store "interval" 1].

(** What the scheduler runs when a job is due. *)
Definition run_job (j : Job) : Prog unit := job_func j.

(** [def manual_update_vectorstore()], lines 86-93. *)
Definition manual_update_vectorstore : Prog HttpResult :=
  try_except
    (update_vector_store ;;
     Ret (Body [("status", "Vectorstore updated")]))
    (fun e =>
       logging_error
         ("Failed to manually update vector store: " ++ str_exn e)%string ;;
       Ret (JSONResponse 500 [("error", str_exn e)])).

(** The [for chunk in chunks] loop of lines 163-166;
    [all_retrieved_docs] is the list extended so far. *)
Fixpoint retrieve_loop (vector_store : VectorStore) (chunks : list string)
    (all_retrieved_docs : list Document) : Prog (list Document) :=
  match chunks with
  | [] => Ret all_retrieved_docs
  | chunk :: chunks' =>
      retriever <- call (As_retriever vector_store "similarity" 2) ;;
      retrieved_docs <- call (Retriever_invoke retriever chunk) ;;
      retrieve_loop vector_store chunks' (all_retrieved_docs ++ retrieved_docs)
  end.

(** [response['answer']] *)
Definition getitem (d : PyDict.dict string) (k : string) : Prog string :=
  match PyDict.get d k with
  | Some v => Ret v
  | None => Raise (KeyError k)
  end.

(** [async def rag_processing(input_text)], lines 148-196. *)
Definition rag_processing (input_text : string) : Prog string :=
  let transcription_status := "in_process" in
  let llm_answer_status := "in_process" in
  let transcription_status := input_text in
  chunks <- call (Chunk_input_message transcription_status) ;;
  print [VStr "chunks are:"; VList chunks] ;;
  let vector_store_path := "data/static" in
  vector_store <- call (Load_vector_store vector_store_path) ;;
  all_retrieved_docs <- retrieve_loop vector_store chunks [] ;;
  let all_retrieved_docs := dedup_docs all_retrieved_docs in
  print [VStr ("Number of retrieved documents: "
               ++ PyStr.str_of_nat (List.length all_retrieved_docs))%string] ;;
  let context_docs := join_contents all_retrieved_docs in
  print [VStr "Context to send:"; VStr context_docs] ;;
  let context_docs := truncate_context context_docs 6000 in
  chain <- call (Create_chain vector_store) ;;
  response <- call (Chain_invoke chain transcription_status context_docs) ;;
  llm_answer_status <- getitem response "answer" ;;
  print [VStr "Answer:"; VStr llm_answer_status] ;;
  let data := [("transcription_status", transcription_status);
               ("llm_answer_status", llm_answer_status)] in
  let json_response := PyJson.dumps data in
  client <- call Setup_supabase_client ;;
  call (Push_data_to_database client transcription_status llm_answer_status) ;;
  Ret json_response.

End App.

(** ** The collaborators and the execution of a program *)

(** Modelled from the spec: the bodies of [SupaBase],
    [local_data_loader], [CreateVector], [Chunk] and [ModifyingPrompt]
    are not part of [app.py]; they are taken as parameters.  Every
    function takes the environment and returns an outcome, which may be
    an exception, with the environment it leaves.  Per the component
    contracts of the specification only the vector-index build
    ([create_vector_store]) persists an index and [load_vector_store]
    reads it, so these two see the whole store; the other collaborators
    work on the environment. *)
Class Collaborators (H : Handles) : Type := {
  Env : Type;
  setup_supabase_client : Env -> Outcome Client * Env;
  fetch_data_from_database_and_save : Client -> Env -> Outcome unit * Env;
  load_local_documents : string -> Env -> Outcome (list Document) * Env;
  create_vector_store :
    list Document -> Store Env VectorStore ->
    Outcome VectorStore * Store Env VectorStore;
  load_vector_store :
    string -> Store Env VectorStore -> Outcome VectorStore * Env;
  chunk_input_message : string -> Env -> Outcome (list string) * Env;
  as_retriever : VectorStore -> string -> Z -> Env -> Outcome Retriever * Env;
  retriever_invoke : Retriever -> string -> Env -> Outcome (list Document) * Env;
  create_chain : VectorStore -> Env -> Outcome Chain * Env;
  chain_invoke : Chain -> string -> string -> Env -> Outcome (PyDict.dict string) * Env;
  push_data_to_database : Client -> string -> string -> Env -> Outcome unit * Env
}.

Section Run.

Context {H : Handles} {C : Collaborators H}.

Definition World : Type := Store Env VectorStore.

(** A collaborator that works on the environment alone. *)
Definition on_env {X : Type} (f : Env -> Outcome X * Env) (w : World)
    : Outcome X * World :=
  let (r, env') := f (w_env w) in (r, mkStore env' (w_index w)).

(** What a call does to the world.  [logging] and [print] return
    without a change; every other call is a collaborator's. *)
Definition handle {X : Type} (ev : Event X) (w : World) : Outcome X * World :=
  match ev in Event X return Outcome X * World with
  | Logging _ _ => (inr tt, w)
  | Print _ => (inr tt, w)
  | Setup_supabase_client => on_env setup_supabase_client w
  | Fetch_data_from_database_and_save client =>
      on_env (fetch_data_from_database_and_save client) w
  | Load_local_documents path => on_env (load_local_documents path) w
  | Create_vector_store docs => create_vector_store docs w
  | Load_vector_store path =>
      let (r, env') := load_vector_store path w in (r, mkStore env' (w_index w))
  | Chunk_input_message text => on_env (chunk_input_message text) w
  | As_retriever vector_store search_type k =>
      on_env (as_retriever vector_store search_type k) w
  | Retriever_invoke retriever chunk => on_env (retriever_invoke retriever chunk) w
  | Create_chain vector_store => on_env (create_chain vector_store) w
  | Chain_invoke chain input context =>
      on_env (chain_invoke chain input context) w
  | Push_data_to_database client question answer =>
      on_env (push_data_to_database client question answer) w
  end.

(** One entry of an execution trace: the call and its outcome. *)
Definition Entry : Type := {X : Type & (Event X * Outcome X)%type}.

Definition entry {X : Type} (ev : Event X) (r : Outcome X) : Entry :=
  existT _ X (ev, r).

Definition Trace : Type := list Entry.

(** Running a program to its end: the outcome, the world it leaves and
    the calls it made, oldest first. *)
Fixpoint run {A : Type} (p : Prog A) (w : World) : Outcome A * World * Trace :=
  match p with
  | Ret a => (inr a, w, [])
  | Raise e => (inl e, w, [])
  | Vis ev k =>
      let (r, w1) := handle ev w in
      let '(res, w2, tr) := run (k r) w1 in
      (res, w2, entry ev r :: tr)
  end.

(** *** Observations on traces *)

Definition entry_raised (en : Entry) : option exn :=
  match snd (projT2 en) with
  | inl e => Some e
  | inr _ => None
  end.

Definition event_is_rebuild {X : Type} (ev : Event X) : bool :=
  match ev with
  | Create_vector_store _ => true
  | _ => false
  end.

Definition is_rebuild (en : Entry) : bool := event_is_rebuild (fst (projT2 en)).

Definition is_push (en : Entry) : bool :=
  match fst (projT2 en) with
  | Push_data_to_database _ _ _ => true
  | _ => false
  end.

Definition is_chain_invoke (en : Entry) : bool :=
  match fst (projT2 en) with
  | Chain_invoke _ _ _ => true
  | _ => false
  end.

(** The record that a [logging] call leaves. *)
Definition log_record (en : Entry) : option (Level * string) :=
  match fst (projT2 en) with
  | Logging level msg => Some (level, msg)
  | _ => None
  end.

Fixpoint log_records (tr : Trace) : list (Level * string) :=
  match tr with
  | [] => []
  | en :: tr' =>
      match log_record en with
      | Some r => r :: log_records tr'
      | None => log_records tr'
      end
  end.

Definition rebuilds (tr : Trace) : nat := List.length (filter is_rebuild tr).

(** *** Two triggers at once *)

(** A program that has returned or raised. *)
Definition finished {A : Type} (p : Prog A) : bool :=
  match p with
  | Vis _ _ => false
  | _ => true
  end.

(** One call of a thread, made on the shared world. *)
Definition step {A : Type} (p : Prog A) (w : World) : Prog A * World * Trace :=
  match p with
  | Vis ev k => let (r, w1) := handle ev w in (k r, w1, [entry ev r])
  | _ => (p, w, [])
  end.

(** Two threads on one world; the schedule says which thread makes the
    next call ([true]: the first). *)
Fixpoint run_pair {A B : Type} (sched : list bool) (p : Prog A) (q : Prog B)
    (w : World) : Prog A * Prog B * World * Trace :=
  match sched with
  | [] => (p, q, w, [])
  | true :: sched' =>
      let '(p1, w1, t1) := step p w in
      let '(p2, q2, w2, t2) := run_pair sched' p1 q w1 in
      (p2, q2, w2, t1 ++ t2)
  | false :: sched' =>
      let '(q1, w1, t1) := step q w in
      let '(p2, q2, w2, t2) := run_pair sched' p q1 w1 in
      (p2, q2, w2, t1 ++ t2)
  end.

End Run.

(** ** A small instance of the collaborators

    An in-memory stand-in for the [functions] package, used to run the
    programs on concrete inputs: two document directories, a database
    connection, a model and a results table that are up or down, and the
    rows pushed so far. *)

Module Demo.

Record env : Type := mkEnv {
  opendata : list Document;
  inputdata : list Document;
  database_up : bool;
  model_up : bool;
  storage_up : bool;
  pushed : list (string * string)
}.

Definition handles : Handles := {|
  Client := unit;
  VectorStore := list Document;
  Retriever := list Document * Z;
  Chain := unit
|}.

Definition load (path : string) (e : env) : Outcome (list Document) * env :=
  if String.eqb path "data/opendata" then (inr (opendata e), e)
  else if String.eqb path "data/inputdata" then (inr (inputdata e), e)
  else (inl (Exception "no such directory"), e).

Definition build (docs : list Document) (w : Store env (list Document))
    : Outcome (list Document) * Store env (list Document) :=
  (inr docs, mkStore (w_env w) (Some docs)).

Definition load_index (path : string) (w : Store env (list Document))
    : Outcome (list Document) * env :=
  match w_index w with
  | Some vs => (inr vs, w_env w)
  | None => (inl (Exception "no index"), w_env w)
  end.

Definition invoke_model (input context : string) (e : env)
    : Outcome (PyDict.dict string) * env :=
  if model_up e
  then (inr [("input", input); ("context", context);
             ("answer", ("Answer to: " ++ input)%string)], e)
  else (inl (Exception "model timeout"), e).

Definition push (question answer : string) (e : env) : Outcome unit * env :=
  if storage_up e
  then (inr tt, mkEnv (opendata e) (inputdata e) (database_up e) (model_up e)
                      (storage_up e) (pushed e ++ [(question, answer)]))
  else (inl (Exception "storage unavailable"), e).

Definition connect (e : env) : Outcome unit * env :=
  if database_up e then (inr tt, e)
  else (inl (Exception "connection refused"), e).

Definition fetch (client : unit) (e : env) : Outcome unit * env := (inr tt, e).

Definition chunk (text : string) (e : env) : Outcome (list string) * env :=
  (inr [text], e).

Definition retriever_of (vs : list Document) (search_type : string) (k : Z)
    (e : env) : Outcome (list Document * Z) * env :=
  (inr (vs, k), e).

Definition nearest (r : list Document * Z) (chunk : string) (e : env)
    : Outcome (list Document) * env :=
  (inr (firstn (Z.to_nat (snd r)) (fst r)), e).

Definition chain_of (vs : list Document) (e : env) : Outcome unit * env :=
  (inr tt, e).

Definition collaborators : Collaborators handles :=
  @Build_Collaborators handles env
    connect fetch load build load_index chunk retriever_of nearest chain_of
    (fun _ => invoke_model) (fun _ => push).

Definition doc (content : string) : Document := mkDocument content [].

Definition paris : Document := doc "Paris is the capital of France.".

(** Collaborators that never fail and always find the document. *)
Definition always_connect (e : env) : Outcome unit * env := (inr tt, e).

Definition always_load (path : string) (e : env)
    : Outcome (list Document) * env :=
  (inr [paris], e).

Definition steady : Collaborators handles :=
  @Build_Collaborators handles env
    always_connect fetch always_load build load_index chunk retriever_of
    nearest chain_of (fun _ => invoke_model) (fun _ => push).

(** Two threads taking turns, seven calls each. *)
Definition turns : list bool :=
  [true; false; true; false; true; false; true; false; true; false;
   true; false; true; false].

(** A servable world: one document on disk and in the index. *)
Definition world (model storage : bool) : Store env (list Document) :=
  mkStore (mkEnv [paris] [] true model storage []) (Some [paris]).

(** A world whose document directories are empty. *)
Definition empty_corpus : Store env (list Document) :=
  mkStore (mkEnv [] [] true true true []) (Some [paris]).

(** A world whose database cannot be reached. *)
Definition offline : Store env (list Document) :=
  mkStore (mkEnv [paris] [] false true true []) (Some [paris]).

(** The question of the end-to-end scenario, the context assembled for
    it and the answer of the stand-in model. *)
Definition question : string := "What is the capital of France?".
Definition context : string := "Paris is the capital of France.".
Definition answer : string := "Answer to: What is the capital of France?".

Definition exec {A : Type} (p : @Prog handles A) (w : Store env (list Document)) :=
  @run handles collaborators A p w.

End Demo.

(** ** Invariants of the refresh and query paths *)

Section Invariants.

Context {H : Handles} {C : Collaborators H}.

(** The refresh path meets no failure and finds documents: every
    collaborator call of [update_vector_store] returns normally in every
    environment, and the open-data directory is never empty. *)
Definition Reliable : Prop :=
  (forall env, exists client env',
      setup_supabase_client env = (inr client, env')) /\
  (forall client env, exists env',
      fetch_data_from_database_and_save client env = (inr tt, env')) /\
  (forall path env, exists docs env',
      load_local_documents path env = (inr docs, env') /\
      (path = "data/opendata" -> docs <> [])) /\
  (forall docs w, exists vs w', create_vector_store docs w = (inr vs, w')).

(** [Rebuilds n p]: however the worlds seen by [p] evolve between its
    calls, [p] returns (it never raises) after exactly [n] calls of
    [create_vector_store]. *)
Inductive Rebuilds {A : Type} : nat -> Prog A -> Prop :=
| Rebuilds_ret : forall a, Rebuilds 0 (Ret a)
| Rebuilds_call : forall X (ev : Event X) k n,
    (forall w, Rebuilds n (k (fst (handle ev w)))) ->
    Rebuilds ((if event_is_rebuild ev then 1 else 0) + n) (Vis ev k).

(** The two ways a refresh is triggered, and what each one runs: the
    scheduler runs its job, the web framework runs the endpoint and
    gets its result. *)
Inductive Trigger : Type := Scheduled | OnDemand.

Definition fire (t : Trigger) : Prog (option HttpResult) :=
  match t with
  | Scheduled => update_vector_store ;; Ret None
  | OnDemand => r <- manual_update_vectorstore ;; Ret (Some r)
  end.

(** The context handed to the model for the documents retrieved. *)
Definition context_for (all_retrieved_docs : list Document) : string :=
  truncate_context (assemble_context all_retrieved_docs) 6000.

Definition quiet (tr : Trace) : Prop :=
  filter is_chain_invoke tr = [] /\ filter is_push tr = [].

(** The ways a run of [rag_processing] ends, by outcome and trace:
    a failure before the model is called; a failing model call; a
    failure between the model call and the push; a failing push; and the
    run to the end. *)
Inductive rag_run (input : string) : Outcome string -> Trace -> Prop :=
| rag_failed_early : forall e tr,
    quiet tr -> rag_run input (inl e) tr
| rag_model_failed : forall e tr0 chain docs,
    quiet tr0 ->
    rag_run input (inl e)
      (tr0 ++ [entry (Chain_invoke chain input (context_for docs)) (inl e)])
| rag_failed_late : forall e tr0 tr1 chain docs response,
    quiet tr0 -> quiet tr1 ->
    rag_run input (inl e)
      (tr0 ++ entry (Chain_invoke chain input (context_for docs)) (inr response)
           :: tr1)
| rag_push_failed : forall e tr0 tr1 chain docs response answer client,
    quiet tr0 -> quiet tr1 ->
    PyDict.get response "answer" = Some answer ->
    rag_run input (inl e)
      (tr0 ++ entry (Chain_invoke chain input (context_for docs)) (inr response)
           :: tr1 ++ [entry (Push_data_to_database client input answer) (inl e)])
| rag_answered : forall tr0 tr1 chain docs response answer client,
    quiet tr0 -> quiet tr1 ->
    PyDict.get response "answer" = Some answer ->
    rag_run input
      (inr (PyJson.dumps [("transcription_status", input);
                          ("llm_answer_status", answer)]))
      (tr0 ++ entry (Chain_invoke chain input (context_for docs)) (inr response)
           :: tr1 ++ [entry (Push_data_to_database client input answer) (inr tt)]).

End Invariants.

(** ** Observations for the further properties *)

(** Every character is printable ASCII (code points 32 to 126). *)
Fixpoint printable_ascii (s : string) : bool :=
  match s with
  | EmptyString => true
  | String c s' =>
      ((32 <=? N_of_ascii c) && (N_of_ascii c <=? 126))%N && printable_ascii s'
  end.

Section Observations.

Context {H : Handles} {C : Collaborators H}.

(** The documents handed to a rebuild. *)
Definition rebuilt_docs (en : Entry) : option (list Document) :=
  match fst (projT2 en) with
  | Create_vector_store docs => Some docs
  | _ => None
  end.

(** The directory of a load and the documents it returned. *)
Definition loaded (en : Entry) : option (string * list Document) :=
  let (X, p) := en in
  let (ev, r) := p in
  match ev in Event X return Outcome X -> option (string * list Document) with
  | Load_local_documents path =>
      fun r => match r with inr docs => Some (path, docs) | inl _ => None end
  | _ => fun _ => None
  end r.

(** The search type and the [k] a retriever was made with. *)
Definition retriever_request (en : Entry) : option (string * Z) :=
  match fst (projT2 en) with
  | As_retriever _ search_type k => Some (search_type, k)
  | _ => None
  end.

(** The chunk a retriever was invoked with. *)
Definition invoked_chunk (en : Entry) : option string :=
  match fst (projT2 en) with
  | Retriever_invoke _ chunk => Some chunk
  | _ => None
  end.

(** The documents a retriever returned. *)
Definition retrieved (en : Entry) : list Document :=
  let (X, p) := en in
  let (ev, r) := p in
  match ev in Event X return Outcome X -> list Document with
  | Retriever_invoke _ _ =>
      fun r => match r with inr docs => docs | inl _ => [] end
  | _ => fun _ => []
  end r.

Fixpoint invoked_chunks (tr : Trace) : list string :=
  match tr with
  | [] => []
  | en :: tr' =>
      match invoked_chunk en with
      | Some chunk => chunk :: invoked_chunks tr'
      | None => invoked_chunks tr'
      end
  end.


(** The question and the context of a model call. *)
Definition chain_call (en : Entry) : option (string * string) :=
  match fst (projT2 en) with
  | Chain_invoke _ input context => Some (input, context)
  | _ => None
  end.

(** The response of a model call that returned. *)
Definition chain_response (en : Entry) : option (PyDict.dict string) :=
  let (X, p) := en in
  let (ev, r) := p in
  match ev in Event X return Outcome X -> option (PyDict.dict string) with
  | Chain_invoke _ _ _ =>
      fun r => match r with inr response => Some response | inl _ => None end
  | _ => fun _ => None
  end r.

(** The question and the answer of a push. *)
Definition pushed_pair (en : Entry) : option (string * string) :=
  match fst (projT2 en) with
  | Push_data_to_database _ question answer => Some (question, answer)
  | _ => None
  end.

(** The calls of the refresh path and the calls of the query path. *)
Definition refresh_call {X : Type} (ev : Event X) : bool :=
  match ev with
  | Fetch_data_from_database_and_save _ => true
  | Load_local_documents _ => true
  | Create_vector_store _ => true
  | _ => false
  end.

Definition query_call {X : Type} (ev : Event X) : bool :=
  match ev with
  | Load_vector_store _ => true
  | Chunk_input_message _ => true
  | As_retriever _ _ _ => true
  | Retriever_invoke _ _ => true
  | Create_chain _ => true
  | Chain_invoke _ _ _ => true
  | Push_data_to_database _ _ _ => true
  | _ => false
  end.

(** [Avoids bad p]: whatever the calls return, [p] makes no call that
    [bad] marks. *)
Inductive Avoids (bad : forall X : Type, Event X -> bool) {A : Type}
    : Prog A -> Prop :=
| Avoids_ret : forall a, Avoids bad (Ret a)
| Avoids_raise : forall e, Avoids bad (Raise e)
| Avoids_call : forall X (ev : Event X) k,
    bad X ev = false ->
    (forall r, Avoids bad (k r)) ->
    Avoids bad (Vis ev k).

End Observations.

(** ** The runs of the refresh and of a query, call by call *)

Section Runs.

Context {H : Handles} {C : Collaborators H}.

(** A [logging] call in a trace. *)
Definition logged (level : Level) (msg : string) : Entry :=
  entry (Logging level msg) (inr tt).

Definition refresh_started : Entry :=
  logged INFO "Starting vector store update...".

Definition refresh_failed (e : exn) : Entry :=
  logged ERROR ("Failed to update vector store: " ++ str_exn e)%string.

(** The traces of [update_vector_store]: a failure of one of the five
    collaborator calls, the empty corpus, and the rebuild. *)
Inductive refresh_run : Trace -> Prop :=
| refresh_no_client : forall e,
    refresh_run
      [refresh_started; entry Setup_supabase_client (inl e); refresh_failed e]
| refresh_no_fetch : forall client e,
    refresh_run
      [refresh_started; entry Setup_supabase_client (inr client);
       entry (Fetch_data_from_database_and_save client) (inl e);
       refresh_failed e]
| refresh_no_opendata : forall client e,
    refresh_run
      [refresh_started; entry Setup_supabase_client (inr client);
       entry (Fetch_data_from_database_and_save client) (inr tt);
       entry (Load_local_documents "data/opendata") (inl e);
       refresh_failed e]
| refresh_no_inputdata : forall client local_docs e,
    refresh_run
      [refresh_started; entry Setup_supabase_client (inr client);
       entry (Fetch_data_from_database_and_save client) (inr tt);
       entry (Load_local_documents "data/opendata") (inr local_docs);
       entry (Load_local_documents "data/inputdata") (inl e);
       refresh_failed e]
| refresh_empty : forall client local_docs database_docs,
    local_docs ++ database_docs = [] ->
    refresh_run
      [refresh_started; entry Setup_supabase_client (inr client);
       entry (Fetch_data_from_database_and_save client) (inr tt);
       entry (Load_local_documents "data/opendata") (inr local_docs);
       entry (Load_local_documents "data/inputdata") (inr database_docs);
       logged WARNING "No documents found for vector store update."]
| refresh_rebuild_failed : forall client local_docs database_docs e,
    local_docs ++ database_docs <> [] ->
    refresh_run
      [refresh_started; entry Setup_supabase_client (inr client);
       entry (Fetch_data_from_database_and_save client) (inr tt);
       entry (Load_local_documents "data/opendata") (inr local_docs);
       entry (Load_local_documents "data/inputdata") (inr database_docs);
       entry (Create_vector_store (local_docs ++ database_docs)) (inl e);
       refresh_failed e]
| refresh_rebuilt : forall client local_docs database_docs vector_store,
    local_docs ++ database_docs <> [] ->
    refresh_run
      [refresh_started; entry Setup_supabase_client (inr client);
       entry (Fetch_data_from_database_and_save client) (inr tt);
       entry (Load_local_documents "data/opendata") (inr local_docs);
       entry (Load_local_documents "data/inputdata") (inr database_docs);
       entry (Create_vector_store (local_docs ++ database_docs))
             (inr vector_store);
       logged INFO "Vectorstore updated successfully"].

(** What follows the model call in [rag_processing]: the outcome of the
    call, the outcome of the function and the calls made after it. *)
Inductive rag_after (input : string)
    : Outcome (PyDict.dict string) -> Outcome string -> Trace -> Prop :=
| after_model_failed : forall e,
    rag_after input (inl e) (inl e) []
| after_no_answer : forall response,
    PyDict.get response "answer" = None ->
    rag_after input (inr response) (inl (KeyError "answer")) []
| after_no_client : forall response answer e,
    PyDict.get response "answer" = Some answer ->
    rag_after input (inr response) (inl e)
      [entry (Print [VStr "Answer:"; VStr answer]) (inr tt);
       entry Setup_supabase_client (inl e)]
| after_push_failed : forall response answer client e,
    PyDict.get response "answer" = Some answer ->
    rag_after input (inr response) (inl e)
      [entry (Print [VStr "Answer:"; VStr answer]) (inr tt);
       entry Setup_supabase_client (inr client);
       entry (Push_data_to_database client input answer) (inl e)]
| after_answered : forall response answer client,
    PyDict.get response "answer" = Some answer ->
    rag_after input (inr response)
      (inr (PyJson.dumps [("transcription_status", input);
                          ("llm_answer_status", answer)]))
      [entry (Print [VStr "Answer:"; VStr answer]) (inr tt);
       entry Setup_supabase_client (inr client);
       entry (Push_data_to_database client input answer) (inr tt)].

(** The runs of [rag_processing]: a failure before the model call, or
    the model call on the context of the documents retrieved so far and
    what follows it. *)
Inductive rag_steps (input : string) : Outcome string -> Trace -> Prop :=
| steps_early : forall e tr,
    quiet tr -> rag_steps input (inl e) tr
| steps_model : forall chunks tr0 chain m r tr1,
    hd_error tr0 = Some (entry (Chunk_input_message input) (inr chunks)) ->
    invoked_chunks tr0 = chunks ->
    quiet tr0 ->
    rag_after input m r tr1 ->
    rag_steps input r
      (tr0 ++ entry (Chain_invoke chain input
                       (context_for (flat_map retrieved tr0))) m
           :: tr1).

End Runs.

(** ** A second instance: a chunker that splits into words *)

Module Words.

Definition chunk (text : string) (e : Demo.env) : Outcome (list string) * Demo.env :=
  (inr (PyStr.split text), e).

(** A model whose response has no ['answer']. *)
Definition mute_model (input context : string) (e : Demo.env)
    : Outcome (PyDict.dict string) * Demo.env :=
  (inr [("input", input); ("context", context)], e).

Definition collaborators : Collaborators Demo.handles :=
  @Build_Collaborators Demo.handles Demo.env
    Demo.connect Demo.fetch Demo.load Demo.build Demo.load_index chunk
    Demo.retriever_of Demo.nearest Demo.chain_of
    (fun _ => Demo.invoke_model) (fun _ => Demo.push).

Definition mute : Collaborators Demo.handles :=
  @Build_Collaborators Demo.handles Demo.env
    Demo.connect Demo.fetch Demo.load Demo.build Demo.load_index chunk
    Demo.retriever_of Demo.nearest Demo.chain_of
    (fun _ => mute_model) (fun _ => Demo.push).

End Words.

(** ** The Slack side of [app.py] *)

Module Slack.

#[local] Set Warnings "-register-all".

(** The values of an event payload: what [json] gives. *)
Inductive PyObj : Type :=
| ONone
| OBool (b : bool)
| OInt (n : Z)
| OStr (s : string)
| OList (l : list PyObj)
| ODict (d : list (string * PyObj)).

(** [type(o).__name__] *)
Definition type_name (o : PyObj) : string :=
  match o with
  | ONone => "NoneType"
  | OBool _ => "bool"
  | OInt _ => "int"
  | OStr _ => "str"
  | OList _ => "list"
  | ODict _ => "dict"
  end.

(** [needle in hay] for two strings. *)
Fixpoint contains (needle hay : string) : bool :=
  String.prefix needle hay ||
  match hay with
  | EmptyString => false
  | String _ hay' => contains needle hay'
  end.

(** [o == s] for a string [s]. *)
Definition eq_str (o : PyObj) (s : string) : bool :=
  match o with
  | OStr t => String.eqb t s
  | _ => false
  end.

Definition AttributeError (o : PyObj) (name : string) : exn :=
  Exception ("'" ++ type_name o ++ "' object has no attribute '"
             ++ name ++ "'")%string.

(** The wording of CPython 3.12. *)
Definition not_iterable (o : PyObj) : exn :=
  Exception ("argument of type '" ++ type_name o ++ "' is not iterable")%string.

Definition bad_index (o : PyObj) : exn :=
  match o with
  | OList _ => Exception "list indices must be integers or slices, not str"
  | OStr _ => Exception "string indices must be integers, not 'str'"
  | _ => Exception ("'" ++ type_name o ++ "' object is not subscriptable")%string
  end.

(** [o.get(k)]: only a dictionary has the method; a missing key gives
    [None]. *)
Definition get (o : PyObj) (k : string) : Outcome PyObj :=
  match o with
  | ODict d =>
      inr (match PyDict.get d k with Some v => v | None => ONone end)
  | _ => inl (AttributeError o "get")
  end.

(** [d[k]] for a dictionary. *)
Definition getitem_dict (d : PyDict.dict PyObj) (k : string) : Outcome PyObj :=
  match PyDict.get d k with
  | Some v => inr v
  | None => inl (KeyError k)
  end.

(** [o[k]] for a string key. *)
Definition getitem (o : PyObj) (k : string) : Outcome PyObj :=
  match o with
  | ODict d => getitem_dict d k
  | _ => inl (bad_index o)
  end.

(** [needle in o] for a string [needle]: a substring of a string, an
    element of a list, a key of a dictionary. *)
Definition py_in (needle : string) (o : PyObj) : Outcome bool :=
  match o with
  | OStr t => inr (contains needle t)
  | OList l => inr (existsb (fun x => eq_str x needle) l)
  | ODict d =>
      inr (match PyDict.get d needle with Some _ => true | None => false end)
  | _ => inl (not_iterable o)
  end.

(** [f'<@{os.environ.get("SLACK_BOT_USER_ID")}>'] *)
Definition mention (environ : PyDict.dict string) : string :=
  ("<@" ++ match PyDict.get environ "SLACK_BOT_USER_ID" with
           | Some uid => uid
           | None => "None"
           end ++ ">")%string.

(** A log message: a text, or a text followed by an object that the
    f-string renders. *)
Inductive LogMsg : Type :=
| Text (s : string)
| TextObj (s : string) (o : PyObj).

(** What [slack_events] returns: a [JSONResponse] or the response of
    the Slack request handler. *)
Inductive Reply (R : Type) : Type :=
| JSON (status_code : Z) (content : PyDict.dict PyObj)
| Handled (r : R).
Arguments JSON {R} _ _.
Arguments Handled {R} _.

(** Modelled from the spec: [run_chain] (functions/ChainSelector.py) is
    not part of [app.py], and [say], the request, the signature
    verifier and the request handler belong to the Slack and web
    libraries; they are taken as parameters that may raise. *)
Class Side : Type := {
  SEnv : Type;
  Request : Type;
  Response : Type;
  run_chain : PyObj -> SEnv -> Outcome PyObj * SEnv;
  say : PyObj -> option PyObj -> SEnv -> Outcome unit * SEnv;
  request_body : Request -> SEnv -> Outcome string * SEnv;
  is_valid :
    string -> option string -> option string -> SEnv -> Outcome bool * SEnv;
  request_json : Request -> SEnv -> Outcome PyObj * SEnv;
  handler_handle : Request -> SEnv -> Outcome Response * SEnv
}.

Section Handlers.

Context {S : Side}.

(** The calls made, with their outcomes. *)
Inductive Call : Type :=
| Logger (level : Level) (msg : LogMsg)
| Run_chain (text : PyObj) (r : Outcome PyObj)
| Say (text : PyObj) (thread_ts : option PyObj) (r : Outcome unit)
| Request_body (request : Request) (r : Outcome string)
| Is_valid (body : string) (timestamp signature : option string)
    (r : Outcome bool)
| Request_json (request : Request) (r : Outcome PyObj)
| Handler_handle (request : Request) (r : Outcome Response).

(** The state threaded through a handler: the collaborators'
    environment and the calls made so far, oldest first. *)
Record State : Type := mkState {
  s_env : SEnv;
  s_calls : list Call
}.

Definition M (A : Type) : Type := State -> Outcome A * State.

Definition ret {A : Type} (a : A) : M A := fun s => (inr a, s).

Definition raise {A : Type} (e : exn) : M A := fun s => (inl e, s).

Definition bind {A B : Type} (p : M A) (f : A -> M B) : M B :=
  fun s =>
    match p s with
    | (inl e, s1) => (inl e, s1)
    | (inr a, s1) => f a s1
    end.

(** [try: p except Exception as e: handler(e)] *)
Definition try_except {A : Type} (p : M A) (handler : exn -> M A) : M A :=
  fun s =>
    match p s with
    | (inl e, s1) => handler e s1
    | (inr a, s1) => (inr a, s1)
    end.

(** A value that was computed without a call. *)
Definition lift {A : Type} (r : Outcome A) : M A := fun s => (r, s).

(** A collaborator call, recorded with its outcome. *)
Definition call {X : Type} (f : SEnv -> Outcome X * SEnv)
    (record : Outcome X -> Call) : M X :=
  fun s =>
    let (r, env') := f (s_env s) in
    (r, mkState env' (s_calls s ++ [record r])).

Definition logger (level : Level) (msg : LogMsg) : M unit :=
  fun s => (inr tt, mkState (s_env s) (s_calls s ++ [Logger level msg])).

End Handlers.

Declare Scope slack_scope.
Delimit Scope slack_scope with slack.
Notation "x <- p ;; q" := (bind p (fun x => q))
  (at level 61, p at next level, right associativity) : slack_scope.
Notation "p ;; q" := (bind p (fun _ => q))
  (at level 61, right associativity) : slack_scope.

Section App.

Context {S : Side}.

Local Open Scope slack_scope.

Definition apology : PyObj :=
  OStr "Sorry, something went wrong while processing your message.".

(** The condition of line 107: [or] does not evaluate its second
    operand when the first holds. *)
Definition addressed (environ : PyDict.dict string) (channel_type text : PyObj)
    : Outcome bool :=
  if eq_str channel_type "im" then inr true
  else py_in (mention environ) text.

(** [def handle_message_events(body, say, logger)], lines 96-114. *)
Definition handle_message_events (environ : PyDict.dict string)
    (body : PyDict.dict PyObj) : M unit :=
  logger INFO (TextObj "Received message: " (ODict body)) ;;
  try_except
    (event <- lift (getitem_dict body "event") ;;
     user <- lift (get event "user") ;;
     text <- lift (get event "text") ;;
     channel_type <- lift (get event "channel_type") ;;
     thread_ts <- lift (get event "ts") ;;
     hit <- lift (addressed environ channel_type text) ;;
     if hit : bool then
       response <- call (run_chain text) (Run_chain text) ;;
       call (say response (Some thread_ts)) (Say response (Some thread_ts))
     else ret tt)
    (fun e =>
       logger ERROR (Text ("Error handling message: " ++ str_exn e)%string) ;;
       call (say apology None) (Say apology None)).

(** [def handle_app_mention_events(body, say, logger)], lines 116-131. *)
Definition handle_app_mention_events (body : PyDict.dict PyObj) : M unit :=
  logger INFO (TextObj "Received app_mention event: " (ODict body)) ;;
  try_except
    (event <- lift (getitem_dict body "event") ;;
     user <- lift (get event "user") ;;
     text <- lift (get event "text") ;;
     thread_ts <- lift (get event "ts") ;;
     response <- call (run_chain text) (Run_chain text) ;;
     call (say response (Some thread_ts)) (Say response (Some thread_ts)))
    (fun e =>
       logger ERROR
         (Text ("Error handling app_mention event: " ++ str_exn e)%string) ;;
       call (say apology None) (Say apology None)).

(** [async def slack_events(request, x_slack_signature,
    x_slack_request_timestamp)], lines 133-146. *)
Definition slack_events (request : Request)
    (x_slack_signature x_slack_request_timestamp : option string)
    : M (Reply Response) :=
  body <- call (request_body request) (Request_body request) ;;
  valid <- call (is_valid body x_slack_request_timestamp x_slack_signature)
                (Is_valid body x_slack_request_timestamp x_slack_signature) ;;
  if negb valid then
    ret (JSON 400 [("error", OStr "invalid request")])
  else
    data <- call (request_json request) (Request_json request) ;;
    has_challenge <- lift (py_in "challenge" data) ;;
    if has_challenge : bool then
      challenge <- lift (getitem data "challenge") ;;
      ret (JSON 200 [("challenge", challenge)])
    else
      r <- call (handler_handle request) (Handler_handle request) ;;
      ret (Handled r).

(** Running a handler from an environment, with no call made yet. *)
Definition exec {A : Type} (p : M A) (env : SEnv)
    : Outcome A * SEnv * list Call :=
  let (r, s) := p (mkState env []) in (r, s_env s, s_calls s).

(** The calls that are not log records. *)
Definition is_logger (c : Call) : bool :=
  match c with
  | Logger _ _ => true
  | _ => false
  end.

Definition is_run_chain (c : Call) : bool :=
  match c with
  | Run_chain _ _ => true
  | _ => false
  end.

Definition is_say (c : Call) : bool :=
  match c with
  | Say _ _ _ => true
  | _ => false
  end.

Definition is_handler_handle (c : Call) : bool :=
  match c with
  | Handler_handle _ _ => true
  | _ => false
  end.

Definition is_request_json (c : Call) : bool :=
  match c with
  | Request_json _ _ => true
  | _ => false
  end.

End App.

(** A stand-in for the Slack side: the chain answers or is down, and
    the environment keeps what was said. *)
Record bot : Type := mkBot {
  chain_up : bool;
  secret_ok : bool;
  payload : PyObj;
  said : list (PyObj * option PyObj)
}.

Definition answer_of (text : PyObj) (b : bot) : Outcome PyObj * bot :=
  if chain_up b then (inr (OStr "an answer"), b)
  else (inl (Exception "chain failed"), b).

Definition post (text : PyObj) (thread_ts : option PyObj) (b : bot)
    : Outcome unit * bot :=
  (inr tt, mkBot (chain_up b) (secret_ok b) (payload b)
                 (said b ++ [(text, thread_ts)])).

Definition demo : Side :=
  @Build_Side bot unit string
    answer_of post
    (fun _ b => (inr "raw body", b))
    (fun _ _ _ b => (inr (secret_ok b), b))
    (fun _ b => (inr (payload b), b))
    (fun _ b => (inr "handled", b)).

Definition environ : PyDict.dict string := [("SLACK_BOT_USER_ID", "U1")].

(** A message event of a channel or of a direct conversation. *)
Definition message (channel_type text : PyObj) : PyDict.dict PyObj :=
  [("type", OStr "event_callback");
   ("event", ODict [("type", OStr "message"); ("user", OStr "U7");
                    ("text", text); ("channel_type", channel_type);
                    ("ts", OStr "1700000000.000100")])].

(** A message event without a text, as an edit or a deletion has. *)
Definition textless : PyDict.dict PyObj :=
  [("event", ODict [("type", OStr "message");
                    ("subtype", OStr "message_changed");
                    ("channel_type", OStr "channel");
                    ("ts", OStr "1700000000.000200")])].

End Slack.

(** ** The runs of [slack_events], call by call *)

Section SlackRuns.
Import Slack.

Context {S : Side}.

(** The outcome and the calls of [slack_events]: a failing read of the
    body, a failing or negative signature check, a failing parse, a
    payload in which [in] or the subscript raises, the challenge, and
    the dispatch to the Slack handler. *)
Inductive events_run (request : Request) (signature timestamp : option string)
    : Outcome (Reply Response) -> list Call -> Prop :=
| events_no_body : forall e,
    events_run request signature timestamp (inl e)
      [Request_body request (inl e)]
| events_check_failed : forall body e,
    events_run request signature timestamp (inl e)
      [Request_body request (inr body);
       Is_valid body timestamp signature (inl e)]
| events_rejected : forall body,
    events_run request signature timestamp
      (inr (JSON 400 [("error", OStr "invalid request")]))
      [Request_body request (inr body);
       Is_valid body timestamp signature (inr false)]
| events_no_json : forall body e,
    events_run request signature timestamp (inl e)
      [Request_body request (inr body);
       Is_valid body timestamp signature (inr true);
       Request_json request (inl e)]
| events_not_a_container : forall body data e,
    py_in "challenge" data = inl e ->
    events_run request signature timestamp (inl e)
      [Request_body request (inr body);
       Is_valid body timestamp signature (inr true);
       Request_json request (inr data)]
| events_no_subscript : forall body data e,
    py_in "challenge" data = inr true ->
    getitem data "challenge" = inl e ->
    events_run request signature timestamp (inl e)
      [Request_body request (inr body);
       Is_valid body timestamp signature (inr true);
       Request_json request (inr data)]
| events_challenge : forall body data challenge,
    py_in "challenge" data = inr true ->
    getitem data "challenge" = inr challenge ->
    events_run request signature timestamp
      (inr (JSON 200 [("challenge", challenge)]))
      [Request_body request (inr body);
       Is_valid body timestamp signature (inr true);
       Request_json request (inr data)]
| events_dispatch_failed : forall body data e,
    py_in "challenge" data = inr false ->
    events_run request signature timestamp (inl e)
      [Request_body request (inr body);
       Is_valid body timestamp signature (inr true);
       Request_json request (inr data);
       Handler_handle request (inl e)]
| events_dispatched : forall body data response,
    py_in "challenge" data = inr false ->
    events_run request signature timestamp (inr (Handled response))
      [Request_body request (inr body);
       Is_valid body timestamp signature (inr true);
       Request_json request (inr data);
       Handler_handle request (inr response)].

End SlackRuns.

(** * Properties *)

(** ** Tokens: [split] and [join] *)

Module PyStrFacts.
Import PyStr.

Lemma append_empty_r : forall s : string, (s ++ EmptyString)%string = s.
Proof.
  induction s as [|c s IH]; simpl; [reflexivity | now rewrite IH].
Qed.

Lemma append_assoc : forall a b c : string,
  ((a ++ b) ++ c)%string = (a ++ (b ++ c))%string.
Proof.
  induction a as [|x a IH]; intros b c; simpl; [reflexivity | now rewrite IH].
Qed.

Lemma no_space_app : forall a b,
  no_space (a ++ b) = no_space a && no_space b.
Proof.
  induction a as [|x a IH]; intros b; simpl; [reflexivity|].
  rewrite IH. now rewrite andb_assoc.
Qed.

Lemma flush_token : forall t, t <> EmptyString -> flush t = [t].
Proof.
  intros [|c t] Ht; [now elim Ht | reflexivity].
Qed.

Lemma flush_tokens : forall tok,
  no_space tok = true -> Forall is_token (flush tok).
Proof.
  intros [|c tok] Hs; simpl; constructor; [|constructor].
  split; [discriminate | exact Hs].
Qed.

(** Reading a run of non-space characters only grows the current token. *)
Lemma split_from_chars : forall t tok s,
  no_space t = true ->
  split_from tok (t ++ s) = split_from (tok ++ t) s.
Proof.
  induction t as [|c t IH]; intros tok s Ht; simpl.
  - now rewrite append_empty_r.
  - simpl in Ht. apply andb_true_iff in Ht. destruct Ht as [Hc Ht].
    apply negb_true_iff in Hc. rewrite Hc.
    rewrite IH by exact Ht. now rewrite append_assoc.
Qed.

Lemma split_token : forall t, is_token t -> split t = [t].
Proof.
  intros t [Hne Hs]. unfold split.
  rewrite <- (append_empty_r t) at 1.
  rewrite split_from_chars by exact Hs. simpl.
  now apply flush_token.
Qed.

Lemma join_cons2 : forall sep x y l,
  join sep (x :: y :: l) = (x ++ sep ++ join sep (y :: l))%string.
Proof. reflexivity. Qed.

(** Splitting a single-spaced line of tokens gives the tokens back. *)
Lemma split_join : forall l, Forall is_token l -> split (join " " l) = l.
Proof.
  induction l as [|t l IH]; intros Hl; [reflexivity|].
  inversion Hl as [|? ? Ht Hl']; subst.
  destruct l as [|t2 l].
  - now apply split_token.
  - rewrite join_cons2. unfold split.
    destruct Ht as [Hne Hs].
    rewrite split_from_chars by exact Hs. simpl.
    rewrite flush_token by exact Hne. simpl.
    f_equal. apply IH. exact Hl'.
Qed.

Lemma split_from_tokens : forall s tok,
  no_space tok = true -> Forall is_token (split_from tok s).
Proof.
  induction s as [|c s IH]; intros tok Htok; simpl.
  - now apply flush_tokens.
  - destruct (isspace c) eqn:Hc.
    + apply Forall_app. split; [now apply flush_tokens | now apply IH].
    + apply IH. rewrite no_space_app, Htok. simpl. now rewrite Hc.
Qed.

(** Every element of [s.split()] is a non-empty string without
    whitespace. *)
Lemma split_tokens : forall s, Forall is_token (split s).
Proof. intros s. now apply split_from_tokens. Qed.

Lemma Forall_firstn : forall (A : Type) (P : A -> Prop) n (l : list A),
  Forall P l -> Forall P (firstn n l).
Proof.
  intros A P n. induction n as [|n IH]; intros l Hl; simpl; [constructor|].
  destruct Hl; constructor; auto.
Qed.

(** The join of the first [n] tokens starts the join of all of them. *)
Lemma join_firstn_prefix : forall sep n l,
  is_prefix (join sep (firstn n l)) (join sep l).
Proof.
  intros sep n. induction n as [|n IH]; intros l.
  - exists (join sep l). now destruct l.
  - destruct l as [|x l]; [now exists EmptyString|].
    simpl firstn. destruct l as [|y l].
    + rewrite firstn_nil. exists EmptyString. simpl. now rewrite append_empty_r.
    + destruct (IH (y :: l)) as [r Hr].
      destruct n as [|n].
      * exists (sep ++ join sep (y :: l))%string. reflexivity.
      * simpl firstn in *. rewrite !join_cons2. rewrite Hr.
        exists r. now rewrite !append_assoc.
Qed.

End PyStrFacts.

(** ** Truncation *)

Section Truncation.
Import PyStr PyStrFacts.

(** With a non-negative bound the result is the single-spaced line of
    the first [max_tokens] tokens. *)
Lemma truncate_context_firstn : forall context max_tokens,
  (0 <= max_tokens)%Z ->
  truncate_context context max_tokens
  = join " " (firstn (Z.to_nat max_tokens) (split context)).
Proof.
  intros context n Hn. unfold truncate_context, len, slice_to.
  destruct (Z.of_nat (List.length (split context)) >? n)%Z eqn:Hgt.
  - destruct (n <? 0)%Z eqn:Hneg; [apply Z.ltb_lt in Hneg; lia | reflexivity].
  - rewrite firstn_all2; [reflexivity|].
    rewrite Z.gtb_ltb in Hgt. apply Z.ltb_ge in Hgt. lia.
Qed.

Lemma split_truncate_context : forall context max_tokens,
  (0 <= max_tokens)%Z ->
  split (truncate_context context max_tokens)
  = firstn (Z.to_nat max_tokens) (split context).
Proof.
  intros context n Hn. rewrite truncate_context_firstn by exact Hn.
  apply split_join. apply Forall_firstn. apply split_tokens.
Qed.

(** A negative bound drops tokens from the end: [tokens[:-1]]. *)
Example truncate_context_negative :
  truncate_context "a b c" (-1) = "a b".
Proof. reflexivity. Qed.

End Truncation.

Section TruncationClaims.
Import PyStr PyStrFacts.

(** Claim C2, as amended.  For every context string and every positive
    bound [N], the result of [truncate_context] has at most [N]
    whitespace-delimited tokens; its tokens are exactly the first [N]
    tokens of the context (whole tokens, so the cut is at a token
    boundary); and the result is a string prefix of the context once the
    context's whitespace runs are normalised to single spaces
    ([' '.join(context.split())]) - not of the context itself. *)
Theorem truncate_context_token_prefix : forall context N,
  (0 < N)%Z ->
  let out := truncate_context context N in
  (len (split out) <= N)%Z /\
  split out = firstn (Z.to_nat N) (split context) /\
  (forall t, In t (split out) -> In t (split context) /\ is_token t) /\
  is_prefix out (join " " (split context)).
Proof.
  intros context N HN out. subst out.
  assert (Hs : split (truncate_context context N)
               = firstn (Z.to_nat N) (split context))
    by (apply split_truncate_context; lia).
  repeat split.
  - rewrite Hs. unfold len.
    pose proof (firstn_le_length (Z.to_nat N) (split context)). lia.
  - exact Hs.
  - rewrite Hs in H. rewrite <- (firstn_skipn (Z.to_nat N) (split context)).
    apply in_or_app. now left.
  - pose proof (split_tokens (truncate_context context N)) as Htok.
    rewrite Forall_forall in Htok. now apply Htok.
  - pose proof (split_tokens (truncate_context context N)) as Htok.
    rewrite Forall_forall in Htok. now apply Htok.
  - rewrite truncate_context_firstn by lia. apply join_firstn_prefix.
Qed.

Lemma truncate_context_token_prefix_witness :
  (0 < 2)%Z /\
  let out := truncate_context "alpha  beta gamma" 2 in
  (len (split out) <= 2)%Z /\
  split out = firstn (Z.to_nat 2) (split "alpha  beta gamma") /\
  (forall t, In t (split out) ->
             In t (split "alpha  beta gamma") /\ is_token t) /\
  is_prefix out (join " " (split "alpha  beta gamma")).
Proof.
  split; [lia|].
  apply (truncate_context_token_prefix "alpha  beta gamma" 2). lia.
Defined.

(** Claim C2, as stated, fails: two passages joined by the newline
    separator and a bound that keeps both.  The result replaces the
    newline by a space, so it is not a prefix of the context. *)
Lemma truncate_context_not_string_prefix :
  (0 < 2)%Z /\
  truncate_context ("a" ++ newline ++ "b") 2 = "a b" /\
  ~ is_prefix (truncate_context ("a" ++ newline ++ "b") 2)
              ("a" ++ newline ++ "b").
Proof.
  split; [lia|]. split; [reflexivity|].
  intros [r Hr]. vm_compute in Hr. discriminate Hr.
Qed.

(** Claim C9, as amended.  For every context string and every bound
    [N >= 0], truncating twice is truncating once. *)
Theorem truncate_context_idempotent : forall context N,
  (0 <= N)%Z ->
  truncate_context (truncate_context context N) N
  = truncate_context context N.
Proof.
  intros context N HN.
  rewrite (truncate_context_firstn (truncate_context context N)) by exact HN.
  rewrite split_truncate_context by exact HN.
  rewrite firstn_firstn, Nat.min_id.
  symmetry. now apply truncate_context_firstn.
Qed.

Lemma truncate_context_idempotent_witness :
  (0 <= 2)%Z /\
  truncate_context (truncate_context ("a  b" ++ newline ++ "c") 2) 2
  = truncate_context ("a  b" ++ newline ++ "c") 2.
Proof.
  split; [lia|].
  apply (truncate_context_idempotent ("a  b" ++ newline ++ "c") 2). lia.
Defined.

(** Claim C9, as stated for every bound, fails at a negative bound: the
    slice [tokens[:-1]] drops the last token at each application. *)
Lemma truncate_context_negative_not_idempotent :
  truncate_context (truncate_context "a b c" (-1)) (-1)
  <> truncate_context "a b c" (-1).
Proof. vm_compute. discriminate. Qed.

End TruncationClaims.

(** ** Deduplication *)

Module PyDictFacts.
Import PyDict.

Lemma existsb_eqb_In : forall k l,
  existsb (String.eqb k) l = true <-> In k l.
Proof.
  intros k l. rewrite existsb_exists. split.
  - intros [x [Hx He]]. apply String.eqb_eq in He. now subst.
  - intros Hk. exists k. split; [exact Hk | apply String.eqb_refl].
Qed.

Lemma keys_setitem : forall (V : Type) (d : dict V) k v,
  keys (setitem d k v) = add_key (keys d) k.
Proof.
  intros V d k v. unfold add_key.
  induction d as [|[k' v'] d IH]; simpl; [reflexivity|].
  rewrite (String.eqb_sym k k').
  destruct (String.eqb k' k) eqn:Hk; simpl; [reflexivity|].
  unfold keys in *. rewrite IH.
  now destruct (existsb (String.eqb k) (map fst d)).
Qed.

Lemma keys_fold_setitem : forall (V : Type) (key : V -> string) l (d : dict V),
  keys (fold_left (fun d x => setitem d (key x) x) l d)
  = fold_left add_key (map key l) (keys d).
Proof.
  intros V key l. induction l as [|x l IH]; intros d; simpl; [reflexivity|].
  rewrite IH. now rewrite keys_setitem.
Qed.

(** Each item of the comprehension is stored under its own key. *)
Lemma setitem_keyed : forall (V : Type) (key : V -> string) (d : dict V) x,
  Forall (fun kv => key (snd kv) = fst kv) d ->
  Forall (fun kv => key (snd kv) = fst kv) (setitem d (key x) x).
Proof.
  intros V key d x. induction d as [|[k' v'] d IH]; intros Hd; simpl.
  - constructor; [reflexivity | constructor].
  - inversion Hd as [|? ? Hk Hd']; subst.
    destruct (String.eqb k' (key x)) eqn:He.
    + apply String.eqb_eq in He. constructor; [now simpl | exact Hd'].
    + constructor; [exact Hk | now apply IH].
Qed.

Lemma fold_setitem_keyed : forall (V : Type) (key : V -> string) l (d : dict V),
  Forall (fun kv => key (snd kv) = fst kv) d ->
  Forall (fun kv => key (snd kv) = fst kv)
         (fold_left (fun d x => setitem d (key x) x) l d).
Proof.
  intros V key l. induction l as [|x l IH]; intros d Hd; simpl; [exact Hd|].
  apply IH. now apply setitem_keyed.
Qed.

Lemma keyed_values : forall (V : Type) (key : V -> string) (d : dict V),
  Forall (fun kv => key (snd kv) = fst kv) d ->
  map key (values d) = keys d.
Proof.
  intros V key d Hd. unfold values, keys.
  induction Hd as [|[k v] d Hk Hd IH]; simpl; [reflexivity|].
  simpl in Hk. now rewrite Hk, IH.
Qed.

End PyDictFacts.

Section FirstOccurrences.
Import PyDict PyDictFacts.

Lemma filter_filter : forall (A : Type) (f g : A -> bool) l,
  filter f (filter g l) = filter (fun x => g x && f x) l.
Proof.
  intros A f g l. induction l as [|x l IH]; simpl; [reflexivity|].
  destruct (g x); simpl; [destruct (f x)|]; now rewrite IH.
Qed.

Lemma unseen_add : forall seen x y,
  unseen (seen ++ [x]) y = negb (String.eqb y x) && unseen seen y.
Proof.
  intros seen x y. unfold unseen. rewrite existsb_app. simpl.
  rewrite orb_false_r, negb_orb. apply andb_comm.
Qed.

Lemma unseen_known : forall seen x y,
  In x seen -> unseen seen y = negb (String.eqb y x) && unseen seen y.
Proof.
  intros seen x y Hx. destruct (String.eqb y x) eqn:He; [|reflexivity].
  apply String.eqb_eq in He. subst y. simpl. unfold unseen.
  apply existsb_eqb_In in Hx. now rewrite Hx.
Qed.

(** Adding keys one by one computes the first occurrences. *)
Lemma fold_add_key : forall ks seen,
  fold_left add_key ks seen
  = seen ++ filter (unseen seen) (first_occurrences ks).
Proof.
  induction ks as [|x ks IH]; intros seen; simpl.
  - now rewrite app_nil_r.
  - rewrite IH. unfold add_key.
    rewrite filter_filter.
    destruct (existsb (String.eqb x) seen) eqn:Hx.
    + unfold unseen at 2. rewrite Hx. simpl. f_equal.
      apply filter_ext. intros y. apply existsb_eqb_In in Hx.
      now apply unseen_known.
    + unfold unseen at 2. rewrite Hx. simpl.
      rewrite <- app_assoc. simpl. do 2 f_equal.
      apply filter_ext. intros y. apply unseen_add.
Qed.

Lemma first_occurrences_In : forall l x,
  In x (first_occurrences l) <-> In x l.
Proof.
  induction l as [|y l IH]; intros x; simpl; [tauto|].
  rewrite filter_In, IH.
  destruct (String.eqb x y) eqn:He.
  - apply String.eqb_eq in He. subst. simpl. intuition congruence.
  - apply String.eqb_neq in He. simpl. intuition congruence.
Qed.

Lemma NoDup_filter : forall (A : Type) (f : A -> bool) l,
  NoDup l -> NoDup (filter f l).
Proof.
  intros A f l Hl. induction Hl as [|x l Hx Hl IH]; simpl; [constructor|].
  destruct (f x); [|exact IH].
  constructor; [|exact IH]. rewrite filter_In. tauto.
Qed.

Lemma first_occurrences_NoDup : forall l, NoDup (first_occurrences l).
Proof.
  induction l as [|y l IH]; simpl; constructor.
  - rewrite filter_In. intros [_ Hy]. now rewrite String.eqb_refl in Hy.
  - now apply NoDup_filter.
Qed.

Lemma first_occurrences_once : forall l x,
  In x l -> count_occ string_dec (first_occurrences l) x = 1.
Proof.
  intros l x Hx. apply NoDup_count_occ'.
  - apply first_occurrences_NoDup.
  - now apply first_occurrences_In.
Qed.

(** The keys of the comprehension are the first occurrences. *)
Lemma keys_comprehension : forall docs,
  keys (comprehension page_content docs)
  = first_occurrences (map page_content docs).
Proof.
  intros docs. unfold comprehension.
  rewrite keys_fold_setitem, fold_add_key. simpl.
  rewrite <- (filter_ext (fun _ => true)) by reflexivity.
  induction (first_occurrences (map page_content docs)) as [|x l IH];
    simpl; [reflexivity | now rewrite IH].
Qed.

(** The passage texts that survive [dedup_docs]. *)
Lemma context_passages_first_occurrences : forall docs,
  context_passages docs = first_occurrences (map page_content docs).
Proof.
  intros docs. unfold context_passages, dedup_docs.
  rewrite keyed_values by (apply fold_setitem_keyed; constructor).
  apply keys_comprehension.
Qed.

End FirstOccurrences.

Section SurvivingDocument.
Import PyDict PyDictFacts.

Lemma In_keys : forall (V : Type) (d : dict V) k v, In (k, v) d -> In k (keys d).
Proof.
  intros V d k v Hin. unfold keys. apply in_map_iff. now exists (k, v).
Qed.

(** The items after [d[k] = v], for a dictionary without duplicate
    keys. *)
Lemma In_setitem : forall (V : Type) (d : dict V) k v k0 v0,
  NoDup (keys d) ->
  (In (k0, v0) (setitem d k v)
   <-> (k0 = k /\ v0 = v) \/ (k0 <> k /\ In (k0, v0) d)).
Proof.
  intros V d k v k0 v0. induction d as [|[k' v'] d IH]; intros Hnd; simpl.
  - split.
    + intros [E|[]]. inversion E. now left.
    + intros [[-> ->]|[_ []]]. now left.
  - inversion Hnd as [|? ? Hk' Hnd']; subst.
    destruct (String.eqb k' k) eqn:He.
    + apply String.eqb_eq in He. subst k'. simpl. split.
      * intros [E|Hin]; [inversion E; now left|].
        right. split; [|now right].
        intros ->. apply Hk'. now apply In_keys with v0.
      * intros [[-> ->]|[Hne [E|Hin]]]; [now left | | now right].
        inversion E. congruence.
    + apply String.eqb_neq in He. simpl. rewrite (IH Hnd'). split.
      * intros [E|[Hl|[Hne Hin]]].
        -- inversion E; subst. right. split; [exact He | now left].
        -- now left.
        -- right. split; [exact Hne | now right].
      * intros [Hl|[Hne [E|Hin]]]; [right; now left | now left |].
        right. right. now split.
Qed.

Lemma comprehension_snoc : forall docs x,
  comprehension page_content (docs ++ [x])
  = setitem (comprehension page_content docs) (page_content x) x.
Proof.
  intros docs x. unfold comprehension. now rewrite fold_left_app.
Qed.

(** The item stored under a text is the last document with that text. *)
Lemma comprehension_last : forall docs k d,
  In (k, d) (comprehension page_content docs)
  <-> page_content d = k /\
      exists before after,
        docs = before ++ d :: after /\ ~ In k (map page_content after).
Proof.
  intros docs. induction docs as [|x docs IH] using rev_ind; intros k d.
  - simpl. split; [intros []|].
    intros [_ (before & after & Heq & _)]. now destruct before.
  - rewrite comprehension_snoc, In_setitem
      by (rewrite keys_comprehension; apply first_occurrences_NoDup).
    rewrite IH. split.
    + intros [[-> ->]|[Hne [Hk (before & after & Heq & Hnot)]]].
      * split; [reflexivity|]. exists docs, []. split; [reflexivity | intros []].
      * split; [exact Hk|]. exists before, (after ++ [x]). split.
        -- rewrite Heq, <- app_assoc. reflexivity.
        -- rewrite map_app, in_app_iff. simpl. intros [Hin|[E|[]]]; auto.
    + intros [Hk (before & after & Heq & Hnot)].
      destruct after as [|y after] using rev_ind.
      * apply app_inj_tail in Heq. destruct Heq as [_ ->]. now left.
      * clear IHafter. rewrite app_comm_cons, app_assoc in Heq.
        apply app_inj_tail in Heq. destruct Heq as [Hdocs ->].
        rewrite map_app, in_app_iff in Hnot. simpl in Hnot.
        right. split; [intros ->; apply Hnot; right; now left|].
        split; [exact Hk|]. exists before, after. split; [exact Hdocs | tauto].
Qed.

(** The documents that survive deduplication: for each text, the last
    document that carries it. *)
Lemma dedup_docs_keeps_last : forall docs d,
  In d (dedup_docs docs)
  <-> exists before after,
        docs = before ++ d :: after /\
        ~ In (page_content d) (map page_content after).
Proof.
  intros docs d. unfold dedup_docs, values. rewrite in_map_iff. split.
  - intros [[k d'] [Hd Hin]]. simpl in Hd. subst d'.
    apply comprehension_last in Hin. destruct Hin as [Hk Hex]. now subst k.
  - intros Hex. exists (page_content d, d). split; [reflexivity|].
    apply comprehension_last. now split.
Qed.

End SurvivingDocument.

Section DeduplicationClaims.

(** Claim C1.  For every list of retrieved passages, deduplication is by
    exact equality of the passage text and keeps each text at its first
    occurrence: the passages of the assembled context are the first
    occurrences of the texts in retrieval order; every text of the input
    occurs exactly once among them, no other text occurs, and the
    context string is these passages joined by newlines. *)
Theorem dedup_keeps_first_occurrences : forall docs : list Document,
  context_passages docs = first_occurrences (map page_content docs) /\
  NoDup (context_passages docs) /\
  (forall c, In c (map page_content docs) ->
             count_occ string_dec (context_passages docs) c = 1) /\
  (forall c, In c (context_passages docs) -> In c (map page_content docs)) /\
  assemble_context docs
  = PyStr.join PyStr.newline (first_occurrences (map page_content docs)).
Proof.
  intros docs.
  pose proof (context_passages_first_occurrences docs) as Hc.
  repeat split.
  - exact Hc.
  - rewrite Hc. apply first_occurrences_NoDup.
  - intros c Hin. rewrite Hc. now apply first_occurrences_once.
  - intros c Hin. rewrite Hc in Hin. now apply first_occurrences_In.
  - unfold assemble_context, join_contents.
    fold (context_passages docs). now rewrite Hc.
Qed.

(** The dictionary keeps the position of the first occurrence and the
    value of the last one: the surviving [Document] object is the latest
    with that text.  The context reads [page_content] only. *)
Example dedup_docs_keeps_latest_document :
  dedup_docs [mkDocument "a" [("source", "1")];
              mkDocument "b" [];
              mkDocument "a" [("source", "2")]]
  = [mkDocument "a" [("source", "2")]; mkDocument "b" []].
Proof. reflexivity. Qed.

Example assemble_context_repeated :
  assemble_context [Demo.doc "a"; Demo.doc "b"; Demo.doc "a"; Demo.doc "c"]
  = ("a" ++ PyStr.newline ++ "b" ++ PyStr.newline ++ "c")%string.
Proof. reflexivity. Qed.

End DeduplicationClaims.

(** ** Running programs *)

Section RunFacts.

Context {H : Handles} {C : Collaborators H}.

Lemma run_bind : forall (A B : Type) (p : Prog A) (f : A -> Prog B) w,
  run (bind p f) w
  = let '(r, w1, t1) := run p w in
    match r with
    | inl e => (inl e, w1, t1)
    | inr a => let '(r2, w2, t2) := run (f a) w1 in (r2, w2, t1 ++ t2)
    end.
Proof.
  intros A B p f. induction p as [a|e|X ev k IH]; intros w; simpl.
  - now destruct (run (f a) w) as [[r2 w2] t2].
  - reflexivity.
  - destruct (handle ev w) as [r w1]. rewrite IH.
    destruct (run (k r) w1) as [[[e|a] w2] t2]; [reflexivity|].
    now destruct (run (f a) w2) as [[r3 w3] t3].
Qed.

Lemma run_try_except : forall (A : Type) (p : Prog A) handler w,
  run (try_except p handler) w
  = let '(r, w1, t1) := run p w in
    match r with
    | inl e => let '(r2, w2, t2) := run (handler e) w1 in (r2, w2, t1 ++ t2)
    | inr a => (inr a, w1, t1)
    end.
Proof.
  intros A p handler. induction p as [a|e|X ev k IH]; intros w; simpl.
  - reflexivity.
  - now destruct (run (handler e) w) as [[r2 w2] t2].
  - destruct (handle ev w) as [r w1]. rewrite IH.
    destruct (run (k r) w1) as [[[e|a] w2] t2]; [|reflexivity].
    now destruct (run (handler e) w2) as [[r3 w3] t3].
Qed.

Lemma run_call : forall (X : Type) (ev : Event X) w,
  run (call ev) w = let (r, w1) := handle ev w in (r, w1, [entry ev r]).
Proof.
  intros X ev w. simpl. now destruct (handle ev w) as [[e|x] w1].
Qed.

Lemma handle_logging : forall level msg w,
  handle (Logging level msg) w = (inr tt, w).
Proof. reflexivity. Qed.

Lemma handle_print : forall args w, handle (Print args) w = (inr tt, w).
Proof. reflexivity. Qed.

(** *** The refresh routine never raises *)

(** Whatever the collaborators do, [update_vector_store] returns
    [None]: an exception of its body ends in the [except] branch, which
    only logs. *)
Lemma update_vector_store_returns : forall w,
  exists w' tr, run update_vector_store w = (inr tt, w', tr).
Proof.
  intros w. unfold update_vector_store. rewrite run_try_except.
  match goal with |- context [run ?body w] =>
    destruct (run body w) as [[[e|[]] w1] t1] end.
  - unfold logging_error. rewrite run_call, handle_logging. eauto.
  - eauto.
Qed.

(** The endpoint returns the success body and does exactly what the
    routine does. *)
Lemma manual_update_runs_routine : forall w w' tr,
  run update_vector_store w = (inr tt, w', tr) ->
  run manual_update_vectorstore w
  = (inr (Body [("status", "Vectorstore updated")]), w', tr).
Proof.
  intros w w' tr Hrun. unfold manual_update_vectorstore.
  rewrite run_try_except, run_bind, Hrun. simpl.
  now rewrite app_nil_r.
Qed.

End RunFacts.

Section RefreshClaims.

Context {H : Handles} {C : Collaborators H}.

(** Claim C10.  The manual refresh endpoint always returns the success
    body [{"status": "Vectorstore updated"}]: the refresh routine
    absorbs every exception, so the endpoint's [except] branch (the 500
    response and its log record) is never taken - the endpoint returns
    normally, and its calls are exactly those of the routine, also when
    the routine logged a failure. *)
Theorem manual_update_always_succeeds : forall w : World,
  exists w' tr,
    run manual_update_vectorstore w
    = (inr (Body [("status", "Vectorstore updated")]), w', tr) /\
    run update_vector_store w = (inr tt, w', tr).
Proof.
  intros w. destruct (update_vector_store_returns w) as [w' [tr Hrun]].
  exists w', tr. split; [now apply manual_update_runs_routine | exact Hrun].
Qed.

(** Claim C7.  The scheduler's only job is [update_vector_store], the
    function the on-demand endpoint calls, so from every world the two
    trigger paths make the same calls with the same outcomes and leave
    the same world; the endpoint adds its response body. *)
Theorem triggers_run_same_routine :
  map run_job scheduler_jobs = [update_vector_store] /\
  forall (j : Job) (w : World),
    In j scheduler_jobs ->
    exists w' tr,
      run (run_job j) w = (inr tt, w', tr) /\
      run manual_update_vectorstore w
      = (inr (Body [("status", "Vectorstore updated")]), w', tr).
Proof.
  split; [reflexivity|].
  intros j w [Hj|[]]. subst j. simpl.
  destruct (update_vector_store_returns w) as [w' [tr Hrun]].
  exists w', tr. split; [exact Hrun | now apply manual_update_runs_routine].
Qed.

(** Claim C3.  When the set-up, the database fetch and the two
    directory loads return and the combined collection is empty, the
    refresh logs the warning and returns: its calls are the start
    record, the four collaborator calls and the warning; the rebuild
    [create_vector_store] is not among them, and the persisted index is
    the one that was there before. *)
Theorem empty_refresh_keeps_index :
  forall (w : World) client env1 env2 env3 env4 local_docs database_docs,
    setup_supabase_client (w_env w) = (inr client, env1) ->
    fetch_data_from_database_and_save client env1 = (inr tt, env2) ->
    load_local_documents "data/opendata" env2 = (inr local_docs, env3) ->
    load_local_documents "data/inputdata" env3 = (inr database_docs, env4) ->
    local_docs ++ database_docs = [] ->
    let tr :=
      [entry (Logging INFO "Starting vector store update...") (inr tt);
       entry Setup_supabase_client (inr client);
       entry (Fetch_data_from_database_and_save client) (inr tt);
       entry (Load_local_documents "data/opendata") (inr local_docs);
       entry (Load_local_documents "data/inputdata") (inr database_docs);
       entry (Logging WARNING "No documents found for vector store update.")
             (inr tt)] in
    run update_vector_store w = (inr tt, mkStore env4 (w_index w), tr) /\
    rebuilds tr = 0 /\
    log_records tr
    = [(INFO, "Starting vector store update...");
       (WARNING, "No documents found for vector store update.")].
Proof.
  intros w client env1 env2 env3 env4 local_docs database_docs
         Hsetup Hfetch Hlocal Hdb Hempty tr.
  split; [|split; reflexivity].
  unfold update_vector_store. cbn.
  unfold on_env at 1. cbn. rewrite Hsetup. cbn.
  unfold on_env at 1. cbn. rewrite Hfetch. cbn.
  unfold on_env at 1. cbn. rewrite Hlocal. cbn.
  unfold on_env at 1. cbn. rewrite Hdb. cbn.
  rewrite Hempty. reflexivity.
Qed.

End RefreshClaims.

Section RefreshWitnesses.

Lemma triggers_run_same_routine_witness :
  In (mkJob update_vector_store "interval" 1)
     (scheduler_jobs (H := Demo.handles)) /\
  exists w' tr,
    Demo.exec (run_job (mkJob update_vector_store "interval" 1))
              (Demo.world true true)
    = (inr tt, w', tr) /\
    Demo.exec manual_update_vectorstore (Demo.world true true)
    = (inr (Body [("status", "Vectorstore updated")]), w', tr).
Proof.
  split; [left; reflexivity|].
  apply (proj2 (triggers_run_same_routine (C := Demo.collaborators))).
  left; reflexivity.
Defined.

Lemma empty_refresh_keeps_index_witness :
  let H := Demo.handles in
  let tr :=
    [entry (Logging INFO "Starting vector store update...") (inr tt);
     entry Setup_supabase_client (inr (tt : Client));
     entry (Fetch_data_from_database_and_save (tt : Client)) (inr tt);
     entry (Load_local_documents "data/opendata") (inr []);
     entry (Load_local_documents "data/inputdata") (inr []);
     entry (Logging WARNING "No documents found for vector store update.")
           (inr tt)] in
  Demo.exec update_vector_store Demo.empty_corpus
  = (inr tt, Demo.empty_corpus, tr) /\
  rebuilds (H := Demo.handles) tr = 0 /\
  log_records (H := Demo.handles) tr
  = [(INFO, "Starting vector store update...");
     (WARNING, "No documents found for vector store update.")].
Proof.
  apply (empty_refresh_keeps_index (C := Demo.collaborators)
           Demo.empty_corpus tt
           (w_env Demo.empty_corpus) (w_env Demo.empty_corpus)
           (w_env Demo.empty_corpus) (w_env Demo.empty_corpus) [] []);
    reflexivity.
Defined.

(** The endpoint reports success also when the refresh failed: with the
    database out of reach the routine logs the failure and the endpoint
    still answers with the success body. *)
Example manual_update_reports_success_on_failure :
  let '(r, w', tr) := Demo.exec manual_update_vectorstore Demo.offline in
  r = inr (Body [("status", "Vectorstore updated")]) /\
  w' = Demo.offline /\
  log_records (H := Demo.handles) tr
  = [(INFO, "Starting vector store update...");
     (ERROR, "Failed to update vector store: connection refused")].
Proof. vm_compute. repeat split. Qed.

End RefreshWitnesses.

(** ** The query path *)

Section QueryFacts.

Context {H : Handles} {C : Collaborators H}.

Lemma quiet_nil : quiet [].
Proof. split; reflexivity. Qed.

Lemma quiet_app : forall t1 t2, quiet t1 -> quiet t2 -> quiet (t1 ++ t2).
Proof.
  intros t1 t2 [Hc1 Hp1] [Hc2 Hp2]. unfold quiet.
  now rewrite !filter_app, Hc1, Hc2, Hp1, Hp2.
Qed.

Lemma quiet_cons : forall en tr,
  is_chain_invoke en = false -> is_push en = false ->
  quiet tr -> quiet (en :: tr).
Proof.
  intros en tr Hc Hp [Hc' Hp']. unfold quiet. simpl.
  now rewrite Hc, Hp.
Qed.

(** The retrieval loop calls the retriever only. *)
Lemma retrieve_loop_quiet : forall chunks vector_store docs w r w' tr,
  run (retrieve_loop vector_store chunks docs) w = (r, w', tr) -> quiet tr.
Proof.
  induction chunks as [|chunk chunks IH]; intros vs docs w r w' tr Hrun.
  - simpl in Hrun. inversion Hrun. apply quiet_nil.
  - cbn [retrieve_loop bind call run] in Hrun.
    destruct (handle (As_retriever vs "similarity" 2) w) as [[e|retriever] w1].
    + cbn in Hrun. inversion Hrun. now repeat apply quiet_cons; try apply quiet_nil.
    + cbn [bind run] in Hrun.
      destruct (handle (Retriever_invoke retriever chunk) w1) as [[e|found] w2].
      * cbn in Hrun. inversion Hrun.
        now repeat apply quiet_cons; try apply quiet_nil.
      * cbn [bind run] in Hrun.
        destruct (run (retrieve_loop vs chunks (docs ++ found)) w2)
          as [[r3 w3] t3] eqn:Hloop.
        inversion Hrun. apply IH in Hloop.
        now repeat apply quiet_cons.
Qed.

End QueryFacts.

Section QueryRuns.

Context {H : Handles} {C : Collaborators H}.

Ltac quiet_tac :=
  repeat first
    [ apply quiet_nil
    | apply quiet_app
    | apply quiet_cons; [reflexivity | reflexivity | ]
    | eassumption ].

Ltac prints Hrun :=
  repeat (rewrite handle_print in Hrun; cbn [bind run] in Hrun).

Ltac ended Hrun := cbn [bind run app] in Hrun; inversion Hrun; subst; clear Hrun.

Lemma trace_split : forall (a b c : Entry) t p1 p2 p3 m rest,
  a :: b :: c :: t ++ p1 :: p2 :: p3 :: m :: rest
  = (a :: b :: c :: t ++ [p1; p2; p3]) ++ m :: rest.
Proof. intros. simpl. now rewrite <- app_assoc. Qed.

(** Every run of [rag_processing] ends in one of the five ways. *)
Lemma rag_processing_run : forall input w r w' tr,
  run (rag_processing input) w = (r, w', tr) -> rag_run input r tr.
Proof.
  intros input w r w' tr Hrun. unfold rag_processing in Hrun.
  cbn [bind call run print] in Hrun.
  destruct (handle (Chunk_input_message input) w) as [[e|chunks] w1].
  { ended Hrun. apply rag_failed_early. quiet_tac. }
  cbn [bind run] in Hrun. prints Hrun.
  destruct (handle (Load_vector_store "data/static") w1) as [[e|vs] w2].
  { ended Hrun. apply rag_failed_early. quiet_tac. }
  cbn [bind run] in Hrun. rewrite run_bind in Hrun.
  destruct (run (retrieve_loop vs chunks []) w2) as [[[e|docs] w3] t3] eqn:Hloop;
    apply retrieve_loop_quiet in Hloop.
  { ended Hrun. apply rag_failed_early. quiet_tac. }
  cbn [bind call run print] in Hrun. prints Hrun.
  destruct (handle (Create_chain vs) w3) as [[e|chain] w4].
  { ended Hrun. apply rag_failed_early. quiet_tac. }
  cbn [bind run] in Hrun.
  fold (assemble_context docs) in Hrun. fold (context_for docs) in Hrun.
  destruct (handle (Chain_invoke chain input (context_for docs)) w4)
    as [[e|response] w5].
  { ended Hrun. rewrite trace_split. apply rag_model_failed. quiet_tac. }
  cbn [bind run] in Hrun. unfold getitem in Hrun.
  destruct (PyDict.get response "answer") as [answer|] eqn:Hanswer.
  2:{ ended Hrun. rewrite trace_split.
      apply rag_failed_late; quiet_tac. }
  cbn [bind run] in Hrun. prints Hrun.
  destruct (handle Setup_supabase_client w5) as [[e|client] w6].
  { ended Hrun. rewrite trace_split. apply rag_failed_late; quiet_tac. }
  cbn [bind run] in Hrun.
  destruct (handle (Push_data_to_database client input answer) w6)
    as [[e|[]] w7].
  { ended Hrun. rewrite trace_split.
    apply (rag_push_failed input e _
             [entry (Print [VStr "Answer:"; VStr answer]) (inr tt);
              entry Setup_supabase_client (inr client)]);
      [quiet_tac | quiet_tac | exact Hanswer]. }
  ended Hrun. rewrite trace_split.
  apply (rag_answered input _
           [entry (Print [VStr "Answer:"; VStr answer]) (inr tt);
            entry Setup_supabase_client (inr client)]);
    [quiet_tac | quiet_tac | exact Hanswer].
Qed.

End QueryRuns.

Section QueryClaims.

Context {H : Handles} {C : Collaborators H}.

Lemma filter_quiet_chain : forall tr, quiet tr -> filter is_chain_invoke tr = [].
Proof. now intros tr [Hc _]. Qed.

Lemma filter_quiet_push : forall tr, quiet tr -> filter is_push tr = [].
Proof. now intros tr [_ Hp]. Qed.

Ltac filters :=
  repeat first
    [ rewrite filter_app
    | rewrite filter_quiet_chain by assumption
    | rewrite filter_quiet_push by assumption
    | progress cbn [filter is_chain_invoke is_push entry projT2 fst app] ].

(** Claim C4, as amended.  For every query in which the language-model
    invocation raises, [rag_processing] does not return a result: the
    same exception leaves [rag_processing] to its caller, the failing
    model call is the last call made, and nothing is pushed to the
    storage collaborator. *)
Theorem model_failure_propagates :
  forall input (w : World) r w' tr en e,
    run (rag_processing input) w = (r, w', tr) ->
    In en tr -> is_chain_invoke en = true -> entry_raised en = Some e ->
    r = inl e /\ (exists tr0, tr = tr0 ++ [en]) /\ filter is_push tr = [].
Proof.
  intros input w r w' tr en e Hrun Hin Hchain Hraised.
  apply rag_processing_run in Hrun.
  assert (Hf : In en (filter is_chain_invoke tr))
    by (apply filter_In; now split).
  destruct Hrun; revert Hf; filters; intros Hf.
  - destruct Hf.
  - destruct Hf as [Hf|[]]. subst en. cbn in Hraised.
    inversion Hraised; subst.
    split; [reflexivity | split; [eauto | now filters]].
  - destruct Hf as [Hf|[]]. subst en. discriminate Hraised.
  - destruct Hf as [Hf|[]]. subst en. discriminate Hraised.
  - destruct Hf as [Hf|[]]. subst en. discriminate Hraised.
Qed.

End QueryClaims.

(** ** The JSON text *)

Module PyJsonFacts.
Import PyJson PyStrFacts.

Lemma read_string_escape_char : forall c rest,
  read_string (escape_char c ++ rest) = push_char c (read_string rest).
Proof.
  intros c rest.
  destruct c as [[] [] [] [] [] [] [] []]; reflexivity.
Qed.

(** Reading an escaped string gives the string back. *)
Lemma read_string_escape : forall s rest,
  read_string (escape s ++ String dquote rest) = Some (s, rest).
Proof.
  induction s as [|c s IH]; intros rest.
  - reflexivity.
  - simpl escape. rewrite append_assoc, read_string_escape_char.
    now rewrite IH.
Qed.

Lemma read_string_dumps_str : forall s rest,
  read_string (escape s ++ quote ++ rest) = Some (s, rest).
Proof. intros s rest. apply read_string_escape. Qed.

Lemma read_members_space : forall fuel s,
  read_members fuel (String " " s) = read_members fuel s.
Proof. intros [|fuel] s; reflexivity. Qed.

Lemma expect_here : forall c s,
  is_ws c = false -> expect c (String c s) = Some s.
Proof.
  intros c s Hc. unfold expect. simpl. now rewrite Hc, Ascii.eqb_refl.
Qed.

Lemma expect_space : forall c s, expect c (String " " s) = expect c s.
Proof. reflexivity. Qed.

(** One member is read back, and the character after it decides. *)
Lemma read_member : forall fuel k v c tail,
  is_ws c = false ->
  read_members (S fuel) (member (k, v) ++ String c tail)
  = if Ascii.eqb c "}" then Some ([(k, v)], tail)
    else if Ascii.eqb c "," then
      match read_members fuel tail with
      | Some (d, rest) => Some ((k, v) :: d, rest)
      | None => None
      end
    else None.
Proof.
  intros fuel k v c tail Hc. unfold member, dumps_str, quote. simpl fst. simpl snd.
  rewrite !append_assoc. cbn [read_members append].
  rewrite expect_here by reflexivity. rewrite read_string_escape.
  rewrite expect_here by reflexivity.
  rewrite expect_space, expect_here by reflexivity.
  rewrite read_string_escape. simpl skip_ws. now rewrite Hc.
Qed.

Lemma read_members_dumps : forall d fuel rest,
  d <> [] -> List.length d <= fuel ->
  read_members fuel (PyStr.join ", " (map member d) ++ String "}" rest)
  = Some (d, rest).
Proof.
  induction d as [|[k v] d IH]; intros fuel rest Hne Hlen; [now elim Hne|].
  destruct fuel as [|fuel]; [simpl in Hlen; lia|].
  destruct d as [|kv d].
  - simpl map. simpl PyStr.join. now rewrite read_member.
  - change (map member ((k, v) :: kv :: d))
      with (member (k, v) :: member kv :: map member d).
    rewrite join_cons2, !append_assoc. simpl append at 2.
    rewrite read_member by reflexivity. simpl Ascii.eqb. cbv iota.
    rewrite read_members_space.
    change (member kv :: map member d) with (map member (kv :: d)).
    rewrite IH; [reflexivity | discriminate | simpl in *; lia].
Qed.

Lemma length_append : forall a b,
  String.length (a ++ b) = String.length a + String.length b.
Proof.
  induction a as [|c a IH]; intros b; simpl; [reflexivity | now rewrite IH].
Qed.

Lemma member_length : forall kv, 1 <= String.length (member kv).
Proof. intros kv. unfold member, dumps_str, quote. simpl. lia. Qed.

Lemma length_join_members : forall d,
  List.length d <= String.length (PyStr.join ", " (map member d)).
Proof.
  induction d as [|kv d IH]; [apply Nat.le_refl|].
  pose proof (member_length kv) as Hm.
  destruct d as [|kv' d].
  - simpl. lia.
  - change (map member (kv :: kv' :: d))
      with (member kv :: member kv' :: map member d).
    rewrite join_cons2, !length_append.
    change (member kv' :: map member d) with (map member (kv' :: d)).
    remember (PyStr.join ", " (map member (kv' :: d))) as J.
    simpl List.length in *. lia.
Qed.

Lemma dumps_members : forall d,
  dumps d = String "{" (PyStr.join ", " (map member d) ++ "}").
Proof. reflexivity. Qed.

(** Reading the text of [dumps] gives the dictionary back. *)
Lemma loads_dumps : forall d, loads (dumps d) = Some d.
Proof.
  intros d. rewrite dumps_members. unfold loads.
  rewrite expect_here by reflexivity.
  destruct d as [|kv d]; [reflexivity|].
  pose proof (length_join_members (kv :: d)) as Hlen.
  remember (PyStr.join ", " (map member (kv :: d))) as J eqn:HJ.
  assert (Hq : exists t, J = String dquote t).
  { subst J. destruct d; simpl; unfold member, dumps_str, quote; simpl; eauto. }
  destruct Hq as [t Ht].
  replace (skip_ws (J ++ "}")) with (String dquote (t ++ "}"))
    by (rewrite Ht; reflexivity).
  change (Ascii.eqb dquote "}") with false. cbv iota.
  assert (Hfuel : List.length (kv :: d) <= String.length (String "{" (J ++ "}"))).
  { change (String.length (String "{" (J ++ "}")))
      with (S (String.length (J ++ "}"))).
    rewrite length_append. lia. }
  subst J. rewrite read_members_dumps;
    [reflexivity | discriminate | exact Hfuel].
Qed.

End PyJsonFacts.

Section AnswerClaims.

Context {H : Handles} {C : Collaborators H}.

Ltac filters :=
  repeat first
    [ rewrite filter_app
    | rewrite filter_quiet_chain by assumption
    | rewrite filter_quiet_push by assumption
    | progress cbn [filter is_chain_invoke is_push entry projT2 fst app] ].

(** Claim C5, as amended.  The answer is computed before the push but
    handed to the caller only after it: when the push of the
    question/answer pair raises, the same exception leaves
    [rag_processing] and the caller gets no answer; and whenever an
    answer is returned, the last call made was a push of the question
    and that answer that returned normally. *)
Theorem answer_returned_only_after_push :
  forall input (w : World) r w' tr,
    run (rag_processing input) w = (r, w', tr) ->
    (forall en e,
        In en tr -> is_push en = true -> entry_raised en = Some e ->
        r = inl e /\ exists tr0, tr = tr0 ++ [en]) /\
    (forall json,
        r = inr json ->
        exists client answer tr0,
          tr = tr0 ++ [entry (Push_data_to_database client input answer)
                             (inr tt)] /\
          json = PyJson.dumps [("transcription_status", input);
                               ("llm_answer_status", answer)]).
Proof.
  intros input w r w' tr Hrun.
  apply rag_processing_run in Hrun. split.
  - intros en e Hin Hpush Hraised.
    assert (Hf : In en (filter is_push tr)) by (apply filter_In; now split).
    destruct Hrun; revert Hf; filters; intros Hf; try (now destruct Hf).
    + destruct Hf as [Hf|[]]. subst en. cbn in Hraised.
      inversion Hraised; subst. split; [reflexivity|].
      eexists. rewrite app_comm_cons, app_assoc. reflexivity.
    + destruct Hf as [Hf|[]]. subst en. discriminate Hraised.
  - intros json Hjson. destruct Hrun; try discriminate Hjson.
    inversion Hjson; subst. exists client, answer.
    eexists. split; [|reflexivity].
    rewrite app_comm_cons, app_assoc. reflexivity.
Qed.

(** Claim C6.  For every input text on which the pipeline completes,
    [rag_processing] returns the JSON text of an object with exactly two
    members, both strings: [transcription_status] is the input text and
    [llm_answer_status] is the ['answer'] of the response that the
    chain gave for this input.  Reading the text back gives these two
    members. *)
Theorem rag_processing_returns_json :
  forall input (w : World) json w' tr,
    run (rag_processing input) w = (inr json, w', tr) ->
    exists chain context response answer,
      In (entry (Chain_invoke chain input context) (inr response)) tr /\
      PyDict.get response "answer" = Some answer /\
      json = PyJson.dumps [("transcription_status", input);
                           ("llm_answer_status", answer)] /\
      PyJson.loads json = Some [("transcription_status", input);
                                ("llm_answer_status", answer)].
Proof.
  intros input w json w' tr Hrun.
  apply rag_processing_run in Hrun.
  inversion Hrun; subst.
  exists chain, (context_for docs), response, answer.
  split; [|split; [assumption | split; [reflexivity|]]].
  - apply in_or_app. right. now left.
  - apply PyJsonFacts.loads_dumps.
Qed.

End AnswerClaims.

Section QueryWitnesses.

Lemma model_failure_propagates_witness :
  let H := Demo.handles in
  let out := Demo.exec (rag_processing Demo.question) (Demo.world false true) in
  let en := entry (Chain_invoke (tt : Chain) Demo.question Demo.context)
                  (inl (Exception "model timeout")) in
  out = (fst (fst out), snd (fst out), snd out) /\
  In en (snd out) /\
  is_chain_invoke en = true /\
  entry_raised en = Some (Exception "model timeout") /\
  fst (fst out) = inl (Exception "model timeout") /\
  (exists tr0, snd out = tr0 ++ [en]) /\
  filter is_push (snd out) = [].
Proof.
  intros H out en.
  assert (Hrun : out = (fst (fst out), snd (fst out), snd out)) by reflexivity.
  assert (Hin : In en (snd out))
    by (vm_compute; repeat (first [left; reflexivity | right])).
  split; [exact Hrun|]. split; [exact Hin|].
  split; [reflexivity|]. split; [reflexivity|].
  exact (model_failure_propagates (C := Demo.collaborators)
           Demo.question (Demo.world false true) _ _ _ en _
           Hrun Hin eq_refl eq_refl).
Defined.

(** Claim C4, as stated, fails: with the model call raising, the entry
    point hands back no result with a failed status; the exception of
    the model call leaves [rag_processing] unhandled. *)
Lemma model_failure_is_not_a_result :
  let out := Demo.exec (rag_processing Demo.question) (Demo.world false true) in
  fst (Demo.invoke_model Demo.question Demo.context
         (w_env (Demo.world false true)))
  = inl (Exception "model timeout") /\
  fst (fst out) = inl (Exception "model timeout") /\
  ~ exists result : string, fst (fst out) = inr result.
Proof.
  intros out. split; [reflexivity|]. split; [reflexivity|].
  intros [result Hresult]. vm_compute in Hresult. discriminate Hresult.
Qed.

Lemma answer_returned_only_after_push_witness :
  let H := Demo.handles in
  let out := Demo.exec (rag_processing Demo.question) (Demo.world true false) in
  out = (fst (fst out), snd (fst out), snd out) /\
  (forall en e,
      In en (snd out) -> is_push en = true -> entry_raised en = Some e ->
      fst (fst out) = inl e /\ exists tr0, snd out = tr0 ++ [en]) /\
  (forall json,
      fst (fst out) = inr json ->
      exists (client : Client) answer tr0,
        snd out = tr0 ++ [entry (Push_data_to_database client Demo.question answer)
                                (inr tt)] /\
        json = PyJson.dumps [("transcription_status", Demo.question);
                             ("llm_answer_status", answer)]).
Proof.
  intros H out.
  assert (Hrun : out = (fst (fst out), snd (fst out), snd out)) by reflexivity.
  split; [exact Hrun|].
  exact (answer_returned_only_after_push (C := Demo.collaborators)
           Demo.question (Demo.world true false) _ _ _ Hrun).
Defined.

(** Claim C5, as stated, fails: the model answered, the push raised,
    and the caller gets the exception of the push instead of the
    answer. *)
Lemma push_failure_loses_answer :
  let H := Demo.handles in
  let out := Demo.exec (rag_processing Demo.question) (Demo.world true false) in
  In (entry (Chain_invoke (tt : Chain) Demo.question Demo.context)
            (inr [("input", Demo.question); ("context", Demo.context);
                  ("answer", Demo.answer)]))
     (snd out) /\
  In (entry (Push_data_to_database (tt : Client) Demo.question Demo.answer)
            (inl (Exception "storage unavailable")))
     (snd out) /\
  fst (fst out) = inl (Exception "storage unavailable") /\
  ~ exists json : string, fst (fst out) = inr json.
Proof.
  intros H out.
  split; [vm_compute; repeat (first [left; reflexivity | right])|].
  split; [vm_compute; repeat (first [left; reflexivity | right])|].
  split; [reflexivity|].
  intros [json Hjson]. vm_compute in Hjson. discriminate Hjson.
Qed.

Lemma rag_processing_returns_json_witness :
  let H := Demo.handles in
  let out := Demo.exec (rag_processing Demo.question) (Demo.world true true) in
  let json := PyJson.dumps [("transcription_status", Demo.question);
                            ("llm_answer_status", Demo.answer)] in
  out = (inr json, snd (fst out), snd out) /\
  exists (chain : Chain) context response answer,
    In (entry (Chain_invoke chain Demo.question context) (inr response))
       (snd out) /\
    PyDict.get response "answer" = Some answer /\
    json = PyJson.dumps [("transcription_status", Demo.question);
                         ("llm_answer_status", answer)] /\
    PyJson.loads json = Some [("transcription_status", Demo.question);
                              ("llm_answer_status", answer)].
Proof.
  intros H out json.
  assert (Hrun : out = (inr json, snd (fst out), snd out)) by reflexivity.
  split; [exact Hrun|].
  exact (rag_processing_returns_json (C := Demo.collaborators)
           Demo.question (Demo.world true true) json _ _ Hrun).
Defined.

(** The end-to-end scenario: the text returned and what was pushed. *)
Example rag_processing_scenario :
  let out := Demo.exec (rag_processing Demo.question) (Demo.world true true) in
  fst (fst out)
  = inr ("{" ++ PyJson.dumps_str "transcription_status" ++ ": "
             ++ PyJson.dumps_str Demo.question ++ ", "
             ++ PyJson.dumps_str "llm_answer_status" ++ ": "
             ++ PyJson.dumps_str Demo.answer ++ "}")%string /\
  Demo.pushed (w_env (snd (fst out))) = [(Demo.question, Demo.answer)].
Proof. split; reflexivity. Qed.

End QueryWitnesses.

(** ** Two triggers at once *)

Section ConcurrentTriggers.

Context {H : Handles} {C : Collaborators H}.

Lemma Rebuilds_other : forall (A X : Type) (ev : Event X) (k : Outcome X -> Prog A) n,
  event_is_rebuild ev = false ->
  (forall w, Rebuilds n (k (fst (handle ev w)))) ->
  Rebuilds n (Vis ev k).
Proof.
  intros A X ev k n Hev Hk.
  pose proof (Rebuilds_call X ev k n Hk) as HR.
  now rewrite Hev in HR.
Qed.

Lemma Rebuilds_create : forall (A : Type) docs (k : Outcome VectorStore -> Prog A) n,
  (forall w, Rebuilds n (k (fst (handle (Create_vector_store docs) w)))) ->
  Rebuilds (S n) (Vis (Create_vector_store docs) k).
Proof.
  intros A docs k n Hk. exact (Rebuilds_call _ (Create_vector_store docs) k n Hk).
Qed.

Lemma Rebuilds_bind : forall (A B : Type) (p : Prog A) (f : A -> Prog B) n,
  Rebuilds n p -> (forall a, Rebuilds 0 (f a)) -> Rebuilds n (bind p f).
Proof.
  intros A B p f n HR Hf. induction HR as [a|X ev k n Hk IH]; simpl.
  - apply Hf.
  - apply Rebuilds_call. exact IH.
Qed.

Lemma Rebuilds_try_except : forall (A : Type) (p : Prog A) handler n,
  Rebuilds n p -> Rebuilds n (try_except p handler).
Proof.
  intros A p handler n HR. induction HR as [a|X ev k n Hk IH]; simpl.
  - constructor.
  - apply Rebuilds_call. exact IH.
Qed.

(** With reliable collaborators a refresh rebuilds exactly once. *)
Lemma update_vector_store_rebuilds :
  Reliable -> Rebuilds 1 update_vector_store.
Proof.
  intros (Hsetup & Hfetch & Hload & Hcreate).
  unfold update_vector_store. cbn [try_except bind call logging_info].
  apply Rebuilds_other; [reflexivity|]. intros w0.
  rewrite handle_logging. cbn [fst try_except bind].
  apply Rebuilds_other; [reflexivity|]. intros w1.
  destruct (Hsetup (w_env w1)) as (client & e1 & Hs).
  unfold handle, on_env. rewrite Hs. cbn [fst try_except bind].
  apply Rebuilds_other; [reflexivity|]. intros w2.
  destruct (Hfetch client (w_env w2)) as (e2 & Hf).
  unfold handle, on_env. rewrite Hf. cbn [fst try_except bind].
  apply Rebuilds_other; [reflexivity|]. intros w3.
  destruct (Hload "data/opendata" (w_env w3)) as (local_docs & e3 & Hl & Hne).
  unfold handle, on_env. rewrite Hl. cbn [fst try_except bind].
  apply Rebuilds_other; [reflexivity|]. intros w4.
  destruct (Hload "data/inputdata" (w_env w4)) as (database_docs & e4 & Hd & _).
  unfold handle, on_env. rewrite Hd. cbn [fst try_except bind].
  destruct local_docs as [|d local_docs]; [now elim Hne|].
  cbn [app try_except bind call].
  apply Rebuilds_create. intros w5.
  destruct (Hcreate (d :: local_docs ++ database_docs) w5) as (vs & w6 & Hc).
  unfold handle. rewrite Hc. cbn [fst try_except bind logging_info call].
  apply Rebuilds_other; [reflexivity|]. intros w7.
  rewrite handle_logging. cbn [fst try_except bind]. constructor.
Qed.

Lemma fire_rebuilds : forall t, Reliable -> Rebuilds 1 (fire t).
Proof.
  intros t HR. pose proof (update_vector_store_rebuilds HR) as Hu.
  destruct t; unfold fire.
  - apply Rebuilds_bind; [exact Hu | constructor].
  - apply Rebuilds_bind; [|constructor].
    unfold manual_update_vectorstore. apply Rebuilds_try_except.
    apply Rebuilds_bind; [exact Hu | constructor].
Qed.

Lemma rebuilds_app : forall t1 t2 : Trace,
  rebuilds (t1 ++ t2) = rebuilds t1 + rebuilds t2.
Proof.
  intros t1 t2. unfold rebuilds. now rewrite filter_app, length_app.
Qed.

(** A call of a thread uses up one of its rebuilds when it is one. *)
Lemma step_rebuilds : forall (A : Type) (p : Prog A) w n p1 w1 t1,
  Rebuilds n p -> step p w = (p1, w1, t1) ->
  exists m, Rebuilds m p1 /\ rebuilds t1 + m = n.
Proof.
  intros A p w n p1 w1 t1 HR Hstep.
  destruct HR as [a|X ev k n Hk]; simpl in Hstep.
  - inversion Hstep; subst. exists 0. split; [constructor | reflexivity].
  - specialize (Hk w). destruct (handle ev w) as [r w2].
    inversion Hstep; subst. exists n. split; [exact Hk|].
    unfold rebuilds, is_rebuild. simpl. now destruct (event_is_rebuild ev).
Qed.

Lemma run_pair_rebuilds :
  forall (A B : Type) sched (p : Prog A) (q : Prog B) w a b p' q' w' tr,
    Rebuilds a p -> Rebuilds b q ->
    run_pair sched p q w = (p', q', w', tr) ->
    exists a' b',
      Rebuilds a' p' /\ Rebuilds b' q' /\ rebuilds tr + a' + b' = a + b.
Proof.
  intros A B sched. induction sched as [|turn sched IH];
    intros p q w a b p' q' w' tr Hp Hq Hrun.
  - simpl in Hrun. inversion Hrun; subst. exists a, b. auto.
  - destruct turn; simpl in Hrun.
    + destruct (step p w) as [[p1 w1] t1] eqn:Hstep.
      destruct (run_pair sched p1 q w1) as [[[p2 q2] w2] t2] eqn:Hrest.
      inversion Hrun; subst.
      destruct (step_rebuilds _ _ _ _ _ _ _ Hp Hstep) as (m & Hm & Hsum).
      destruct (IH _ _ _ _ _ _ _ _ _ Hm Hq Hrest) as (a' & b' & Ha & Hb & Hs).
      exists a', b'. rewrite rebuilds_app. repeat split; auto. lia.
    + destruct (step q w) as [[q1 w1] t1] eqn:Hstep.
      destruct (run_pair sched p q1 w1) as [[[p2 q2] w2] t2] eqn:Hrest.
      inversion Hrun; subst.
      destruct (step_rebuilds _ _ _ _ _ _ _ Hq Hstep) as (m & Hm & Hsum).
      destruct (IH _ _ _ _ _ _ _ _ _ Hp Hm Hrest) as (a' & b' & Ha & Hb & Hs).
      exists a', b'. rewrite rebuilds_app. repeat split; auto. lia.
Qed.

Lemma finished_rebuilds : forall (A : Type) (p : Prog A) n,
  Rebuilds n p -> finished p = true -> n = 0 /\ exists a, p = Ret a.
Proof.
  intros A p n HR Hfin. destruct HR as [a|X ev k n Hk].
  - split; [reflexivity | eauto].
  - discriminate Hfin.
Qed.

End ConcurrentTriggers.

Section ConcurrencyClaims.

Context {H : Handles} {C : Collaborators H}.

(** Claim C8, as amended.  The code has no lock and coalesces nothing:
    an on-demand trigger runs the whole refresh routine on its own,
    whatever else is running.  With collaborators that return normally
    and a non-empty corpus, an on-demand trigger fired together with
    another trigger (scheduled or on-demand), interleaved in any way and
    both run to their end, gives two executed rebuilds, and both
    triggers return without error. *)
Theorem concurrent_triggers_both_rebuild :
  Reliable ->
  forall t sched (w : World) p' q' w' tr,
    run_pair sched (fire t) (fire OnDemand) w = (p', q', w', tr) ->
    finished p' = true -> finished q' = true ->
    rebuilds tr = 2 /\ (exists a, p' = Ret a) /\ (exists b, q' = Ret b).
Proof.
  intros HR t sched w p' q' w' tr Hrun Hp Hq.
  destruct (run_pair_rebuilds _ _ _ _ _ _ _ _ _ _ _ _
              (fire_rebuilds t HR) (fire_rebuilds OnDemand HR) Hrun)
    as (a' & b' & Ha & Hb & Hsum).
  destruct (finished_rebuilds _ _ _ Ha Hp) as [Ha0 Hpa].
  destruct (finished_rebuilds _ _ _ Hb Hq) as [Hb0 Hqb].
  repeat split; [lia | exact Hpa | exact Hqb].
Qed.

End ConcurrencyClaims.

Section ConcurrencyWitnesses.

Lemma steady_reliable : Reliable (C := Demo.steady).
Proof.
  repeat split.
  - intros env. now exists tt, env.
  - intros client env. now exists env.
  - intros path env. exists [Demo.paris], env. split; [reflexivity | discriminate].
  - intros docs w. now exists docs, (mkStore (w_env w) (Some docs)).
Qed.

Lemma concurrent_triggers_both_rebuild_witness :
  let H := Demo.handles in
  let out := run_pair (C := Demo.steady) Demo.turns
               (fire Scheduled) (fire OnDemand) (Demo.world true true) in
  Reliable (C := Demo.steady) /\
  out = (fst (fst (fst out)), snd (fst (fst out)), snd (fst out), snd out) /\
  finished (fst (fst (fst out))) = true /\
  finished (snd (fst (fst out))) = true /\
  rebuilds (snd out) = 2 /\
  (exists a, fst (fst (fst out)) = Ret a) /\
  (exists b, snd (fst (fst out)) = Ret b).
Proof.
  intros H out.
  assert (Hrun : out = (fst (fst (fst out)), snd (fst (fst out)),
                        snd (fst out), snd out)) by reflexivity.
  split; [exact steady_reliable|]. split; [exact Hrun|].
  split; [reflexivity|]. split; [reflexivity|].
  exact (concurrent_triggers_both_rebuild (C := Demo.steady) steady_reliable
           Scheduled Demo.turns (Demo.world true true) _ _ _ _
           Hrun eq_refl eq_refl).
Defined.

(** Claim C8, as stated, fails: two on-demand triggers taking turns on
    a servable corpus both run to their end, and the trace holds two
    rebuilds, not one. *)
Lemma concurrent_triggers_not_coalesced :
  let H := Demo.handles in
  let out := run_pair (C := Demo.collaborators) Demo.turns
               (fire OnDemand) (fire OnDemand) (Demo.world true true) in
  fst (fst (fst out)) = Ret (Some (Body [("status", "Vectorstore updated")])) /\
  snd (fst (fst out)) = Ret (Some (Body [("status", "Vectorstore updated")])) /\
  rebuilds (snd out) = 2 /\
  rebuilds (snd out) <> 1.
Proof.
  intros H out. repeat split; try reflexivity.
  vm_compute. discriminate.
Qed.

End ConcurrencyWitnesses.

(** * Further properties *)

(** ** More on truncation *)

Module TruncationMore.
Import PyStr PyStrFacts.

Lemma length_join_cons : forall sep x l,
  String.length (join sep (x :: l))
  <= String.length x + String.length sep + String.length (join sep l).
Proof.
  intros sep x [|y l].
  - simpl. lia.
  - rewrite join_cons2, !PyJsonFacts.length_append. lia.
Qed.

Lemma length_join_split_from : forall s tok,
  String.length (join " " (split_from tok s))
  <= String.length tok + String.length s.
Proof.
  induction s as [|c s IH]; intros tok; simpl split_from.
  - destruct tok; simpl; lia.
  - destruct (isspace c).
    + specialize (IH EmptyString). destruct tok as [|a tok].
      * simpl in *. lia.
      * change (flush (String a tok) ++ split_from "" s)
          with (String a tok :: split_from "" s).
        pose proof (length_join_cons " " (String a tok) (split_from "" s)).
        simpl String.length in *. lia.
    + specialize (IH (tok ++ String c EmptyString)%string).
      rewrite PyJsonFacts.length_append in IH. simpl String.length in *. lia.
Qed.

Lemma is_prefix_length : forall a b,
  is_prefix a b -> String.length a <= String.length b.
Proof.
  intros a b [r ->]. rewrite PyJsonFacts.length_append. lia.
Qed.

Lemma length_join_firstn : forall n s,
  String.length (join " " (firstn n (split s))) <= String.length s.
Proof.
  intros n s.
  pose proof (is_prefix_length _ _ (join_firstn_prefix " " n (split s))).
  pose proof (length_join_split_from s EmptyString).
  unfold split in *. simpl String.length in *. lia.
Qed.

(** Truncation never lengthens the context, whatever the bound. *)
Theorem truncate_context_never_longer : forall context max_tokens,
  String.length (truncate_context context max_tokens) <= String.length context.
Proof.
  intros context n. unfold truncate_context, len, slice_to.
  destruct (Z.of_nat (List.length (split context)) >? n)%Z.
  - destruct (n <? 0)%Z; apply length_join_firstn.
  - rewrite <- (firstn_all (split context)). apply length_join_firstn.
Qed.

(** Truncating to [m] tokens and then to [n] is truncating to the
    smaller of the two bounds. *)
Theorem truncate_context_compose : forall context m n,
  (0 <= m)%Z -> (0 <= n)%Z ->
  truncate_context (truncate_context context m) n
  = truncate_context context (Z.min m n).
Proof.
  intros context m n Hm Hn.
  rewrite (truncate_context_firstn (truncate_context context m)) by exact Hn.
  rewrite split_truncate_context by exact Hm.
  rewrite (truncate_context_firstn context (Z.min m n)) by lia.
  rewrite firstn_firstn. f_equal. f_equal. lia.
Qed.

Lemma truncate_context_compose_witness :
  (0 <= 3)%Z /\ (0 <= 2)%Z /\
  truncate_context (truncate_context "a b c d" 3) 2
  = truncate_context "a b c d" (Z.min 3 2).
Proof.
  split; [lia|]. split; [lia|].
  apply (truncate_context_compose "a b c d" 3 2); lia.
Defined.

(** A negative bound does not bound: it removes the last [-N] tokens,
    and everything when there are no more than that. *)
Theorem truncate_context_negative_bound : forall context N,
  (N < 0)%Z ->
  split (truncate_context context N)
  = firstn (List.length (split context) - Z.to_nat (- N)) (split context) /\
  ((len (split context) <= - N)%Z ->
   truncate_context context N = EmptyString).
Proof.
  intros context N HN.
  assert (Ht : truncate_context context N
               = join " " (firstn (List.length (split context) - Z.to_nat (- N))
                                  (split context))).
  { unfold truncate_context, len, slice_to.
    replace (Z.of_nat (List.length (split context)) >? N)%Z with true
      by (symmetry; rewrite Z.gtb_ltb; apply Z.ltb_lt; lia).
    replace (N <? 0)%Z with true by (symmetry; apply Z.ltb_lt; lia).
    do 2 f_equal. lia. }
  split.
  - rewrite Ht. apply split_join. apply Forall_firstn. apply split_tokens.
  - intros Hlen. rewrite Ht. unfold len in Hlen.
    replace (List.length (split context) - Z.to_nat (- N)) with 0 by lia.
    reflexivity.
Qed.

Lemma truncate_context_negative_bound_witness :
  (-2 < 0)%Z /\
  split (truncate_context "a b c" (-2))
  = firstn (List.length (split "a b c") - Z.to_nat (- (-2))) (split "a b c") /\
  ((len (split "a b c") <= - (-2))%Z ->
   truncate_context "a b c" (-2) = EmptyString).
Proof.
  split; [lia|]. apply (truncate_context_negative_bound "a b c" (-2)). lia.
Defined.

(** The contexts that truncation leaves as they are: the single-spaced
    lines of at most [N] tokens.  Any other context is changed, also one
    that is within the budget. *)
Theorem truncate_context_fixed_points : forall context N,
  (0 <= N)%Z ->
  (truncate_context context N = context
   <-> join " " (split context) = context /\ (len (split context) <= N)%Z).
Proof.
  intros context N HN. unfold len. split.
  - intros Hfix.
    pose proof (split_truncate_context context N HN) as Hs.
    rewrite Hfix in Hs.
    assert (Hlen : List.length (split context) <= Z.to_nat N).
    { rewrite Hs at 1. apply firstn_le_length. }
    split; [|lia].
    rewrite <- Hfix at 2. rewrite truncate_context_firstn by exact HN.
    now rewrite firstn_all2 by exact Hlen.
  - intros [Hnorm Hlen]. rewrite truncate_context_firstn by exact HN.
    rewrite firstn_all2 by lia. exact Hnorm.
Qed.

Lemma truncate_context_fixed_points_witness :
  (0 <= 5)%Z /\
  (truncate_context "a b" 5 = "a b"
   <-> join " " (split "a b") = "a b" /\ (len (split "a b") <= 5)%Z).
Proof.
  split; [lia|]. apply (truncate_context_fixed_points "a b" 5). lia.
Defined.

End TruncationMore.

(** ** More on deduplication *)

Module DeduplicationMore.
Import PyDict PyDictFacts.

Lemma setitem_new : forall (V : Type) (d : dict V) k v,
  ~ In k (keys d) -> setitem d k v = d ++ [(k, v)].
Proof.
  intros V d k v. induction d as [|[k' v'] d IH]; intros Hk; simpl.
  - reflexivity.
  - destruct (String.eqb k' k) eqn:He.
    + apply String.eqb_eq in He. subst. elim Hk. now left.
    + rewrite IH; [reflexivity|]. intros Hin. apply Hk. now right.
Qed.

(** Documents with pairwise different texts go through unchanged. *)
Lemma comprehension_distinct : forall docs,
  NoDup (map page_content docs) ->
  comprehension page_content docs = map (fun d => (page_content d, d)) docs.
Proof.
  induction docs as [|x docs IH] using rev_ind; intros Hnd; [reflexivity|].
  rewrite map_app in Hnd. apply NoDup_remove in Hnd. simpl in Hnd.
  rewrite app_nil_r in Hnd. destruct Hnd as [Hnd Hx].
  rewrite comprehension_snoc, IH by exact Hnd.
  rewrite setitem_new.
  - now rewrite map_app.
  - unfold keys. rewrite map_map. exact Hx.
Qed.

Lemma values_comprehension_distinct : forall docs,
  NoDup (map page_content docs) ->
  values (comprehension page_content docs) = docs.
Proof.
  intros docs Hnd. unfold values.
  rewrite comprehension_distinct by exact Hnd.
  rewrite map_map. simpl. apply map_id.
Qed.

(** Deduplication removes documents only; a list whose texts are
    pairwise different is returned as it is. *)
Theorem dedup_docs_distinct : forall docs,
  NoDup (map page_content docs) -> dedup_docs docs = docs.
Proof.
  intros docs Hnd. now apply values_comprehension_distinct.
Qed.

Lemma dedup_docs_distinct_witness :
  NoDup (map page_content [Demo.doc "a"; Demo.doc "b"]) /\
  dedup_docs [Demo.doc "a"; Demo.doc "b"] = [Demo.doc "a"; Demo.doc "b"].
Proof.
  assert (Hnd : NoDup (map page_content [Demo.doc "a"; Demo.doc "b"])).
  { simpl. constructor.
    - intros [E|[]]. discriminate E.
    - constructor; [intros [] | constructor]. }
  split; [exact Hnd | exact (dedup_docs_distinct _ Hnd)].
Defined.

(** Deduplicating twice is deduplicating once. *)
Theorem dedup_docs_idempotent : forall docs,
  dedup_docs (dedup_docs docs) = dedup_docs docs.
Proof.
  intros docs. apply values_comprehension_distinct.
  fold (context_passages docs).
  rewrite context_passages_first_occurrences.
  apply first_occurrences_NoDup.
Qed.

Lemma length_filter_le : forall (A : Type) (f : A -> bool) l,
  List.length (filter f l) <= List.length l.
Proof.
  intros A f l. induction l as [|x l IH]; simpl; [lia|].
  destruct (f x); simpl; lia.
Qed.

Lemma length_first_occurrences : forall l,
  List.length (first_occurrences l) <= List.length l.
Proof.
  induction l as [|x l IH]; simpl; [lia|].
  pose proof (length_filter_le _ (fun y => negb (String.eqb y x))
                (first_occurrences l)). lia.
Qed.

(** The number of documents after deduplication is the number of
    different texts, which is at most the number retrieved. *)
Theorem dedup_docs_length : forall docs,
  List.length (dedup_docs docs)
  = List.length (first_occurrences (map page_content docs)) /\
  List.length (dedup_docs docs) <= List.length docs.
Proof.
  intros docs.
  assert (Hlen : List.length (dedup_docs docs)
                 = List.length (first_occurrences (map page_content docs))).
  { rewrite <- context_passages_first_occurrences.
    unfold context_passages. now rewrite length_map. }
  split; [exact Hlen|].
  rewrite Hlen.
  pose proof (length_first_occurrences (map page_content docs)) as Hle.
  now rewrite length_map in Hle.
Qed.

End DeduplicationMore.

(** ** More on the JSON text *)

Module PyJsonMore.
Import PyJson PyStrFacts.

Lemma printable_ascii_app : forall a b,
  printable_ascii (a ++ b) = printable_ascii a && printable_ascii b.
Proof.
  induction a as [|c a IH]; intros b; simpl; [reflexivity|].
  rewrite IH. now rewrite andb_assoc.
Qed.

Lemma printable_escape_char : forall c, printable_ascii (escape_char c) = true.
Proof.
  intros c. destruct c as [[] [] [] [] [] [] [] []]; reflexivity.
Qed.

Lemma printable_escape : forall s, printable_ascii (escape s) = true.
Proof.
  induction s as [|c s IH]; simpl; [reflexivity|].
  now rewrite printable_ascii_app, printable_escape_char, IH.
Qed.

Lemma printable_dumps_str : forall s, printable_ascii (dumps_str s) = true.
Proof.
  intros s. unfold dumps_str, quote.
  rewrite !printable_ascii_app, printable_escape. reflexivity.
Qed.

Lemma printable_member : forall kv, printable_ascii (member kv) = true.
Proof.
  intros kv. unfold member.
  rewrite !printable_ascii_app, !printable_dumps_str. reflexivity.
Qed.

Lemma printable_join_members : forall d,
  printable_ascii (PyStr.join ", " (map member d)) = true.
Proof.
  induction d as [|kv d IH]; [reflexivity|].
  destruct d as [|kv' d].
  - simpl. apply printable_member.
  - change (map member (kv :: kv' :: d))
      with (member kv :: member kv' :: map member d).
    rewrite join_cons2, !printable_ascii_app, printable_member.
    simpl map in IH. now rewrite IH.
Qed.

(** The text of [json.dumps] is printable ASCII whatever the strings
    hold: quotes, backslashes, control characters and characters
    above 126 leave as escapes. *)
Lemma dumps_printable_ascii : forall d : PyDict.dict string,
  printable_ascii (dumps d) = true.
Proof.
  intros d. rewrite PyJsonFacts.dumps_members.
  change (String "{" (PyStr.join ", " (map member d) ++ "}"))
    with ("{" ++ (PyStr.join ", " (map member d) ++ "}"))%string.
  rewrite !printable_ascii_app, printable_join_members. reflexivity.
Qed.

(** Two dictionaries with the same JSON text are the same dictionary. *)
Lemma dumps_injective : forall d1 d2 : PyDict.dict string,
  dumps d1 = dumps d2 -> d1 = d2.
Proof.
  intros d1 d2 Heq.
  pose proof (PyJsonFacts.loads_dumps d1) as H1.
  rewrite Heq, PyJsonFacts.loads_dumps in H1. now inversion H1.
Qed.

End PyJsonMore.

(** ** More on the refresh *)

Section RefreshRuns.

Context {H : Handles} {C : Collaborators H}.

Ltac go Hrun :=
  cbn [try_except bind call run logging_info logging_warning logging_error app]
    in Hrun;
  rewrite ?handle_logging in Hrun;
  cbn [try_except bind call run logging_info logging_warning logging_error app]
    in Hrun.

Ltac finish Hrun :=
  go Hrun; inversion Hrun; subst; clear Hrun; split; [reflexivity|].

(** Every run of [update_vector_store] returns [None] and is one of the
    seven traces. *)
Lemma update_vector_store_run : forall w r w' tr,
  run update_vector_store w = (r, w', tr) -> r = inr tt /\ refresh_run tr.
Proof.
  intros w r w' tr Hrun. unfold update_vector_store in Hrun. go Hrun.
  destruct (handle Setup_supabase_client w) as [[e|client] w1].
  { finish Hrun. apply refresh_no_client. }
  go Hrun.
  destruct (handle (Fetch_data_from_database_and_save client) w1)
    as [[e|[]] w2].
  { finish Hrun. apply refresh_no_fetch. }
  go Hrun.
  destruct (handle (Load_local_documents "data/opendata") w2)
    as [[e|local_docs] w3].
  { finish Hrun. apply refresh_no_opendata. }
  go Hrun.
  destruct (handle (Load_local_documents "data/inputdata") w3)
    as [[e|database_docs] w4].
  { finish Hrun. apply refresh_no_inputdata. }
  go Hrun.
  destruct (local_docs ++ database_docs) as [|d docs] eqn:Hdocs.
  { finish Hrun. now apply refresh_empty. }
  go Hrun.
  destruct (handle (Create_vector_store (d :: docs)) w4) as [[e|vs] w5].
  { finish Hrun. rewrite <- Hdocs.
    apply refresh_rebuild_failed. now rewrite Hdocs. }
  finish Hrun. rewrite <- Hdocs. apply refresh_rebuilt. now rewrite Hdocs.
Qed.

Ltac pick Hin :=
  unfold refresh_started, refresh_failed, logged in Hin; simpl In in Hin;
  repeat (destruct Hin as [Hin|Hin]; [subst|]); try contradiction.

(** A failing collaborator call ends the refresh at once: the calls
    before it returned, the call is followed by the error record with
    the exception's message and by nothing else, and the routine
    returns. *)
Theorem refresh_failure_is_logged : forall (w : World) r w' tr en e,
  run update_vector_store w = (r, w', tr) ->
  In en tr -> entry_raised en = Some e ->
  r = inr tt /\
  exists tr0,
    tr = tr0 ++ [en; logged ERROR ("Failed to update vector store: "
                                   ++ str_exn e)%string] /\
    Forall (fun en' => entry_raised en' = None) tr0.
Proof.
  intros w r w' tr en e Hrun Hin Hraised.
  apply update_vector_store_run in Hrun. destruct Hrun as [Hr Hrun].
  split; [exact Hr|].
  destruct Hrun; pick Hin; try discriminate Hraised;
    cbn in Hraised; inversion Hraised; subst.
  - exists [refresh_started]. split; [reflexivity | repeat constructor].
  - eexists [_; _]. split; [reflexivity | repeat constructor].
  - eexists [_; _; _]. split; [reflexivity | repeat constructor].
  - eexists [_; _; _; _]. split; [reflexivity | repeat constructor].
  - eexists [_; _; _; _; _]. split; [reflexivity | repeat constructor].
Qed.

(** The rebuild is called at most once, never with an empty collection,
    and with the documents of [data/opendata] followed by those of
    [data/inputdata], both loaded in this run. *)
Theorem rebuild_gets_loaded_documents : forall (w : World) r w' tr en docs,
  run update_vector_store w = (r, w', tr) ->
  In en tr -> rebuilt_docs en = Some docs ->
  docs <> [] /\ rebuilds tr = 1 /\
  exists local_docs database_docs,
    docs = local_docs ++ database_docs /\
    In (entry (Load_local_documents "data/opendata") (inr local_docs)) tr /\
    In (entry (Load_local_documents "data/inputdata") (inr database_docs)) tr.
Proof.
  intros w r w' tr en docs Hrun Hin Hdocs.
  apply update_vector_store_run in Hrun. destruct Hrun as [_ Hrun].
  destruct Hrun; pick Hin; try discriminate Hdocs;
    cbn in Hdocs; inversion Hdocs; subst;
    (split; [assumption|]); (split; [reflexivity|]);
    exists local_docs, database_docs;
    (split; [reflexivity|]); split; simpl; auto 10.
Qed.

(** Every refresh leaves two log records, the start and one outcome:
    success only after a rebuild that returned, the warning only
    without a rebuild, the error with the message of the exception that
    a call raised. *)
Theorem refresh_log_records : forall (w : World) r w' tr,
  run update_vector_store w = (r, w', tr) ->
  (log_records tr = [(INFO, "Starting vector store update...");
                     (INFO, "Vectorstore updated successfully")] /\
   exists en, In en tr /\ is_rebuild en = true /\ entry_raised en = None) \/
  (log_records tr = [(INFO, "Starting vector store update...");
                     (WARNING, "No documents found for vector store update.")] /\
   rebuilds tr = 0) \/
  (exists e en,
     log_records tr = [(INFO, "Starting vector store update...");
                       (ERROR, ("Failed to update vector store: "
                                ++ str_exn e)%string)] /\
     In en tr /\ entry_raised en = Some e).
Proof.
  intros w r w' tr Hrun.
  apply update_vector_store_run in Hrun. destruct Hrun as [_ Hrun].
  destruct Hrun.
  - right. right. exists e. eexists. split; [reflexivity|].
    split; [right; left; reflexivity | reflexivity].
  - right. right. exists e. eexists. split; [reflexivity|].
    split; [right; right; left; reflexivity | reflexivity].
  - right. right. exists e. eexists. split; [reflexivity|].
    split; [do 3 right; left; reflexivity | reflexivity].
  - right. right. exists e. eexists. split; [reflexivity|].
    split; [do 4 right; left; reflexivity | reflexivity].
  - right. left. split; reflexivity.
  - right. right. exists e. eexists. split; [reflexivity|].
    split; [do 5 right; left; reflexivity | reflexivity].
  - left. split; [reflexivity|]. eexists.
    split; [do 5 right; left; reflexivity | split; reflexivity].
Qed.

(** The refresh stays on its side: it never loads the persisted index,
    never chunks or retrieves, never calls the model and never pushes
    to the results table. *)
Theorem refresh_makes_no_query_call : forall (w : World) r w' tr,
  run update_vector_store w = (r, w', tr) ->
  Forall (fun en => query_call (fst (projT2 en)) = false) tr.
Proof.
  intros w r w' tr Hrun.
  apply update_vector_store_run in Hrun. destruct Hrun as [_ Hrun].
  destruct Hrun; repeat constructor.
Qed.

End RefreshRuns.

Section RefreshRunWitnesses.

Lemma refresh_failure_is_logged_witness :
  let H := Demo.handles in
  let out := Demo.exec update_vector_store Demo.offline in
  let e := Exception "connection refused" in
  let en := entry Setup_supabase_client (inl e) in
  out = (fst (fst out), snd (fst out), snd out) /\
  In en (snd out) /\
  entry_raised en = Some e /\
  fst (fst out) = inr tt /\
  exists tr0,
    snd out = tr0 ++ [en; logged ERROR ("Failed to update vector store: "
                                        ++ str_exn e)%string] /\
    Forall (fun en' => entry_raised en' = None) tr0.
Proof.
  intros H out e en.
  assert (Hrun : out = (fst (fst out), snd (fst out), snd out)) by reflexivity.
  assert (Hin : In en (snd out)) by (right; left; reflexivity).
  split; [exact Hrun|]. split; [exact Hin|]. split; [reflexivity|].
  exact (refresh_failure_is_logged (C := Demo.collaborators)
           Demo.offline _ _ _ en e Hrun Hin eq_refl).
Defined.

Lemma rebuild_gets_loaded_documents_witness :
  let H := Demo.handles in
  let out := Demo.exec update_vector_store (Demo.world true true) in
  let en := entry (Create_vector_store [Demo.paris])
                  (inr ([Demo.paris] : VectorStore)) in
  out = (fst (fst out), snd (fst out), snd out) /\
  In en (snd out) /\
  rebuilt_docs en = Some [Demo.paris] /\
  [Demo.paris] <> [] /\ rebuilds (snd out) = 1 /\
  exists local_docs database_docs,
    [Demo.paris] = local_docs ++ database_docs /\
    In (entry (Load_local_documents "data/opendata") (inr local_docs))
       (snd out) /\
    In (entry (Load_local_documents "data/inputdata") (inr database_docs))
       (snd out).
Proof.
  intros H out en.
  assert (Hrun : out = (fst (fst out), snd (fst out), snd out)) by reflexivity.
  assert (Hin : In en (snd out)) by (do 5 right; left; reflexivity).
  split; [exact Hrun|]. split; [exact Hin|]. split; [reflexivity|].
  exact (rebuild_gets_loaded_documents (C := Demo.collaborators)
           (Demo.world true true) _ _ _ en [Demo.paris] Hrun Hin eq_refl).
Defined.

Lemma refresh_log_records_witness :
  let H := Demo.handles in
  let out := Demo.exec update_vector_store (Demo.world true true) in
  let tr := snd out in
  out = (fst (fst out), snd (fst out), tr) /\
  ((log_records tr = [(INFO, "Starting vector store update...");
                      (INFO, "Vectorstore updated successfully")] /\
    exists en, In en tr /\ is_rebuild en = true /\ entry_raised en = None) \/
   (log_records tr = [(INFO, "Starting vector store update...");
                      (WARNING, "No documents found for vector store update.")] /\
    rebuilds tr = 0) \/
   (exists e en,
      log_records tr = [(INFO, "Starting vector store update...");
                        (ERROR, ("Failed to update vector store: "
                                 ++ str_exn e)%string)] /\
      In en tr /\ entry_raised en = Some e)).
Proof.
  intros H out tr.
  assert (Hrun : out = (fst (fst out), snd (fst out), tr)) by reflexivity.
  split; [exact Hrun|].
  exact (refresh_log_records (C := Demo.collaborators)
           (Demo.world true true) _ _ _ Hrun).
Defined.

Lemma refresh_makes_no_query_call_witness :
  let H := Demo.handles in
  let out := Demo.exec update_vector_store (Demo.world true true) in
  out = (fst (fst out), snd (fst out), snd out) /\
  Forall (fun en => query_call (fst (projT2 en)) = false) (snd out).
Proof.
  intros H out.
  assert (Hrun : out = (fst (fst out), snd (fst out), snd out)) by reflexivity.
  split; [exact Hrun|].
  exact (refresh_makes_no_query_call (C := Demo.collaborators)
           (Demo.world true true) _ _ _ Hrun).
Defined.

End RefreshRunWitnesses.

(** ** More on the query path *)

Section QuerySteps.

Context {H : Handles} {C : Collaborators H}.

Lemma invoked_chunks_app : forall t1 t2 : Trace,
  invoked_chunks (t1 ++ t2) = invoked_chunks t1 ++ invoked_chunks t2.
Proof.
  induction t1 as [|en t1 IH]; intros t2; simpl; [reflexivity|].
  destruct (invoked_chunk en); simpl; now rewrite IH.
Qed.

(** The retrieval loop, when it completes: one retriever with search
    type "similarity" and [k = 2] and one invocation per chunk, in the
    order of the chunks, and the documents appended in that order. *)
Lemma retrieve_loop_facts : forall chunks vector_store acc (w : World) docs w' tr,
  run (retrieve_loop vector_store chunks acc) w = (inr docs, w', tr) ->
  invoked_chunks tr = chunks /\
  docs = acc ++ flat_map retrieved tr /\
  List.length tr = 2 * List.length chunks /\
  Forall (fun en => retriever_request en = None \/
                    retriever_request en = Some ("similarity", 2%Z)) tr.
Proof.
  induction chunks as [|chunk chunks IH]; intros vs acc w docs w' tr Hrun.
  - simpl in Hrun. inversion Hrun; subst. simpl.
    rewrite app_nil_r. repeat split. constructor.
  - cbn [retrieve_loop bind call run] in Hrun.
    destruct (handle (As_retriever vs "similarity" 2) w) as [[e|retriever] w1];
      [cbn in Hrun; discriminate Hrun|].
    cbn [bind run] in Hrun.
    destruct (handle (Retriever_invoke retriever chunk) w1) as [[e|found] w2];
      [cbn in Hrun; discriminate Hrun|].
    cbn [bind run] in Hrun.
    destruct (run (retrieve_loop vs chunks (acc ++ found)) w2)
      as [[r3 w3] t3] eqn:Hloop.
    inversion Hrun; subst. apply IH in Hloop.
    destruct Hloop as (Hchunks & Hdocs & Hlen & Hreq).
    repeat split.
    + simpl. now rewrite Hchunks.
    + simpl. rewrite Hdocs. now rewrite app_assoc.
    + simpl. rewrite Hlen. lia.
    + constructor; [now right|]. constructor; [now left | exact Hreq].
Qed.

Lemma steps_model_docs : forall input chunks tr0 chain m r tr1 docs,
  flat_map retrieved tr0 = docs ->
  hd_error tr0 = Some (entry (Chunk_input_message input) (inr chunks)) ->
  invoked_chunks tr0 = chunks ->
  quiet tr0 ->
  rag_after input m r tr1 ->
  rag_steps input r
    (tr0 ++ entry (Chain_invoke chain input (context_for docs)) m :: tr1).
Proof.
  intros input chunks tr0 chain m r tr1 docs Hdocs. subst docs.
  apply steps_model.
Qed.

Ltac quiet_tac :=
  repeat first
    [ apply quiet_nil
    | apply quiet_app
    | apply quiet_cons; [reflexivity | reflexivity | ]
    | eassumption ].

Ltac prints Hrun :=
  repeat (rewrite handle_print in Hrun; cbn [bind run] in Hrun).

Ltac ended Hrun := cbn [bind run app] in Hrun; inversion Hrun; subst; clear Hrun.

Ltac model_step :=
  rewrite trace_split; eapply steps_model_docs;
  [ simpl; rewrite flat_map_app; simpl; rewrite app_nil_r; reflexivity
  | reflexivity
  | simpl; rewrite invoked_chunks_app; simpl; rewrite app_nil_r; reflexivity
  | quiet_tac
  | ].

(** Every run of [rag_processing], call by call. *)
Lemma rag_processing_steps : forall input w r w' tr,
  run (rag_processing input) w = (r, w', tr) -> rag_steps input r tr.
Proof.
  intros input w r w' tr Hrun. unfold rag_processing in Hrun.
  cbn [bind call run print] in Hrun.
  destruct (handle (Chunk_input_message input) w) as [[e|chunks] w1].
  { ended Hrun. apply steps_early. quiet_tac. }
  cbn [bind run] in Hrun. prints Hrun.
  destruct (handle (Load_vector_store "data/static") w1) as [[e|vs] w2].
  { ended Hrun. apply steps_early. quiet_tac. }
  cbn [bind run] in Hrun. rewrite run_bind in Hrun.
  destruct (run (retrieve_loop vs chunks []) w2) as [[[e|docs] w3] t3] eqn:Hloop.
  { apply retrieve_loop_quiet in Hloop. ended Hrun.
    apply steps_early. quiet_tac. }
  pose proof (retrieve_loop_quiet _ _ _ _ _ _ _ Hloop) as Hquiet.
  apply retrieve_loop_facts in Hloop.
  destruct Hloop as (Hchunks & Hdocs & _ & _). simpl in Hdocs.
  cbn [bind call run print] in Hrun. prints Hrun.
  destruct (handle (Create_chain vs) w3) as [[e|chain] w4].
  { ended Hrun. apply steps_early. quiet_tac. }
  cbn [bind run] in Hrun.
  fold (assemble_context docs) in Hrun. fold (context_for docs) in Hrun.
  destruct (handle (Chain_invoke chain input (context_for docs)) w4)
    as [[e|response] w5].
  { ended Hrun. model_step. apply after_model_failed. }
  cbn [bind run] in Hrun. unfold getitem in Hrun.
  destruct (PyDict.get response "answer") as [answer|] eqn:Hanswer.
  2:{ ended Hrun. model_step. now apply after_no_answer. }
  cbn [bind run] in Hrun. prints Hrun.
  destruct (handle Setup_supabase_client w5) as [[e|client] w6].
  { ended Hrun. model_step. now apply after_no_client. }
  cbn [bind run] in Hrun.
  destruct (handle (Push_data_to_database client input answer) w6)
    as [[e|[]] w7].
  { ended Hrun. model_step. now apply after_push_failed. }
  ended Hrun. model_step. now apply after_answered.
Qed.

Lemma chain_call_is_chain_invoke : forall en q c,
  chain_call en = Some (q, c) -> is_chain_invoke en = true.
Proof.
  intros [X [ev r]] q c Hc. unfold chain_call, is_chain_invoke in *. simpl in *.
  destruct ev; try discriminate Hc. reflexivity.
Qed.

Lemma chain_response_is_chain_invoke : forall en response,
  chain_response en = Some response -> is_chain_invoke en = true.
Proof.
  intros [X [ev r]] response Hc. unfold is_chain_invoke. simpl in *.
  destruct ev; try discriminate Hc. reflexivity.
Qed.

(** After the model call there is no retrieval and no second call. *)
Lemma rag_after_trace : forall input m r tr1,
  rag_after input m r tr1 ->
  filter is_chain_invoke tr1 = [] /\
  flat_map retrieved tr1 = [] /\
  invoked_chunks tr1 = [].
Proof.
  intros input m r tr1 Hafter. destruct Hafter; repeat split.
Qed.


(** The model call of a run, with what came before and after it. *)
Lemma rag_steps_model_call : forall input r tr en,
  rag_steps input r tr ->
  In en tr -> is_chain_invoke en = true ->
  exists chunks tr0 chain m tr1,
    tr = tr0 ++ en :: tr1 /\
    en = entry (Chain_invoke chain input (context_for (flat_map retrieved tr)))
               m /\
    hd_error tr = Some (entry (Chunk_input_message input) (inr chunks)) /\
    invoked_chunks tr = chunks /\
    quiet tr0 /\
    rag_after input m r tr1.
Proof.
  intros input r tr en Hsteps Hin Hchain.
  assert (Hf : In en (filter is_chain_invoke tr))
    by (apply filter_In; now split).
  destruct Hsteps as [e tr [Hq _]|chunks tr0 chain m r tr1 Hhd Hchunks Hq Hafter].
  - rewrite Hq in Hf. destruct Hf.
  - destruct (rag_after_trace _ _ _ _ Hafter) as (Hc1 & Hr1 & Hi1).
    rewrite filter_app in Hf. destruct Hq as [Hq0 Hp0]. rewrite Hq0 in Hf.
    simpl in Hf. rewrite Hc1 in Hf. destruct Hf as [Hf|[]]. subst en.
    exists chunks, tr0, chain, m, tr1.
    assert (Hret : flat_map retrieved
                     (tr0 ++ entry (Chain_invoke chain input
                                      (context_for (flat_map retrieved tr0))) m
                          :: tr1)
                   = flat_map retrieved tr0).
    { rewrite flat_map_app. simpl. now rewrite Hr1, app_nil_r. }
    rewrite Hret. split; [reflexivity|]. split; [reflexivity|].
    split.
    { destruct tr0; [discriminate Hhd | exact Hhd]. }
    split.
    { rewrite invoked_chunks_app. simpl. now rewrite Hi1, app_nil_r. }
    split; [now split | exact Hafter].
Qed.

End QuerySteps.

Section QueryStepClaims.

Context {H : Handles} {C : Collaborators H}.


(** Whenever the model is called, it is asked the input text as it
    came, every chunk of the chunker has been looked up once and in
    order, and the context is the budgeted, deduplicated join of all
    documents retrieved, which has at most 6000 tokens. *)
Theorem model_gets_budgeted_context :
  forall input (w : World) r w' tr en q c,
    run (rag_processing input) w = (r, w', tr) ->
    In en tr -> chain_call en = Some (q, c) ->
    q = input /\
    c = truncate_context (assemble_context (flat_map retrieved tr)) 6000 /\
    (PyStr.len (PyStr.split c) <= 6000)%Z /\
    exists chunks,
      hd_error tr = Some (entry (Chunk_input_message input) (inr chunks)) /\
      invoked_chunks tr = chunks.
Proof.
  intros input w r w' tr en q c Hrun Hin Hcall.
  apply rag_processing_steps in Hrun.
  destruct (rag_steps_model_call _ _ _ _ Hrun Hin
              (chain_call_is_chain_invoke _ _ _ Hcall))
    as (chunks & tr0 & chain & m & tr1 & _ & Hen & Hhd & Hchunks & _ & _).
  rewrite Hen in Hcall. cbn in Hcall. inversion Hcall; subst q c.
  split; [reflexivity|]. split; [reflexivity|]. split.
  - unfold context_for. rewrite split_truncate_context by lia.
    unfold PyStr.len.
    pose proof (firstn_le_length (Z.to_nat 6000)
                  (PyStr.split (assemble_context (flat_map retrieved tr)))).
    lia.
  - now exists chunks.
Qed.

(** A response of the model without an ['answer'] key ends the query
    with [KeyError('answer')]: the model call is the last call, nothing
    is pushed and no answer is returned. *)
Theorem missing_answer_raises_key_error :
  forall input (w : World) r w' tr en response,
    run (rag_processing input) w = (r, w', tr) ->
    In en tr -> chain_response en = Some response ->
    PyDict.get response "answer" = None ->
    r = inl (KeyError "answer") /\
    (exists tr0, tr = tr0 ++ [en]) /\
    filter is_push tr = [].
Proof.
  intros input w r w' tr en response Hrun Hin Hresp Hnone.
  apply rag_processing_steps in Hrun.
  destruct (rag_steps_model_call _ _ _ _ Hrun Hin
              (chain_response_is_chain_invoke _ _ Hresp))
    as (chunks & tr0 & chain & m & tr1 & Htr & Hen & _ & _ & Hq & Hafter).
  rewrite Hen in Hresp. cbn in Hresp.
  destruct m as [e|response']; [discriminate Hresp|].
  inversion Hresp; subst response'.
  inversion Hafter; subst; try congruence.
  split; [reflexivity|]. split; [now exists tr0|].
  rewrite filter_app. destruct Hq as [_ Hp]. rewrite Hp.
  rewrite Hen. reflexivity.
Qed.


End QueryStepClaims.

Section QueryStepWitnesses.


Lemma model_gets_budgeted_context_witness :
  let H := Demo.handles in
  let out := Demo.exec (rag_processing Demo.question) (Demo.world true true) in
  let tr := snd out in
  let en := entry (Chain_invoke (tt : Chain) Demo.question Demo.context)
                  (inr [("input", Demo.question); ("context", Demo.context);
                        ("answer", Demo.answer)]) in
  out = (fst (fst out), snd (fst out), tr) /\
  In en tr /\
  chain_call en = Some (Demo.question, Demo.context) /\
  Demo.question = Demo.question /\
  Demo.context
  = truncate_context (assemble_context (flat_map retrieved tr)) 6000 /\
  (PyStr.len (PyStr.split Demo.context) <= 6000)%Z /\
  exists chunks,
    hd_error tr
    = Some (entry (Chunk_input_message Demo.question) (inr chunks)) /\
    invoked_chunks tr = chunks.
Proof.
  intros H out tr en.
  assert (Hrun : out = (fst (fst out), snd (fst out), tr)) by reflexivity.
  assert (Hin : In en tr)
    by (vm_compute; repeat (first [left; reflexivity | right])).
  split; [exact Hrun|]. split; [exact Hin|]. split; [reflexivity|].
  exact (model_gets_budgeted_context (C := Demo.collaborators)
           Demo.question (Demo.world true true) _ _ tr en _ _
           Hrun Hin eq_refl).
Defined.

Lemma missing_answer_raises_key_error_witness :
  let H := Demo.handles in
  let out := run (C := Words.mute) (rag_processing Demo.question)
               (Demo.world true true) in
  let tr := snd out in
  let response := [("input", Demo.question); ("context", Demo.context)] in
  let en := entry (Chain_invoke (tt : Chain) Demo.question Demo.context)
                  (inr response) in
  out = (fst (fst out), snd (fst out), tr) /\
  In en tr /\
  chain_response en = Some response /\
  PyDict.get response "answer" = None /\
  fst (fst out) = inl (KeyError "answer") /\
  (exists tr0, tr = tr0 ++ [en]) /\
  filter is_push tr = [].
Proof.
  intros H out tr response en.
  assert (Hrun : out = (fst (fst out), snd (fst out), tr)) by reflexivity.
  assert (Hin : In en tr)
    by (vm_compute; repeat (first [left; reflexivity | right])).
  split; [exact Hrun|]. split; [exact Hin|].
  split; [reflexivity|]. split; [reflexivity|].
  exact (missing_answer_raises_key_error (C := Words.mute)
           Demo.question (Demo.world true true) _ _ tr en response
           Hrun Hin eq_refl eq_refl).
Defined.


End QueryStepWitnesses.

(** ** What the query never does *)

Section QueryFrame.

Context {H : Handles} {C : Collaborators H}.

Lemma Avoids_bind : forall bad (A B : Type) (p : Prog A) (f : A -> Prog B),
  Avoids bad p -> (forall a, Avoids bad (f a)) -> Avoids bad (bind p f).
Proof.
  intros bad A B p f Hp Hf. induction Hp as [a|e|X ev k Hev Hk IH]; simpl.
  - apply Hf.
  - constructor.
  - constructor; [exact Hev | exact IH].
Qed.

Lemma Avoids_one : forall bad (X : Type) (ev : Event X),
  bad X ev = false -> Avoids bad (call ev).
Proof.
  intros bad X ev Hev. unfold call. constructor; [exact Hev|].
  intros [e|x]; constructor.
Qed.

Lemma Avoids_retrieve_loop : forall chunks vector_store acc,
  Avoids (@refresh_call H) (retrieve_loop vector_store chunks acc).
Proof.
  induction chunks as [|chunk chunks IH]; intros vs acc; cbn [retrieve_loop].
  - constructor.
  - apply Avoids_bind; [now apply Avoids_one|]. intros retriever.
    apply Avoids_bind; [now apply Avoids_one|]. intros found. apply IH.
Qed.

Lemma Avoids_rag_processing : forall input,
  Avoids (@refresh_call H) (rag_processing input).
Proof.
  intros input. unfold rag_processing, print, getitem.
  repeat first
    [ apply Avoids_retrieve_loop
    | apply Avoids_one; reflexivity
    | apply Avoids_bind; [|intros ?]
    | constructor ].
  destruct (PyDict.get _ "answer"); constructor.
Qed.

(** A program without refresh calls makes none when it runs, and the
    persisted index is the same after it. *)
Lemma Avoids_run : forall (A : Type) (p : Prog A),
  Avoids (@refresh_call H) p ->
  forall (w : World) r w' tr,
    run p w = (r, w', tr) ->
    Forall (fun en => refresh_call (fst (projT2 en)) = false) tr /\
    w_index w' = w_index w.
Proof.
  intros A p Hp. induction Hp as [a|e|X ev k Hev Hk IH];
    intros w r w' tr Hrun; simpl in Hrun.
  - inversion Hrun; subst. split; [constructor | reflexivity].
  - inversion Hrun; subst. split; [constructor | reflexivity].
  - destruct (handle ev w) as [o w1] eqn:Hh.
    destruct (run (k o) w1) as [[res w2] t2] eqn:Hk2.
    inversion Hrun; subst.
    destruct (IH _ _ _ _ _ Hk2) as [Hall Hidx].
    split; [constructor; [exact Hev | exact Hall]|].
    rewrite Hidx. clear - Hev Hh.
    destruct ev; simpl in Hev; try discriminate Hev;
      unfold handle, on_env in Hh;
      try (inversion Hh; reflexivity);
      match type of Hh with
      | context [let (_, _) := ?c in _] => destruct c; inversion Hh; reflexivity
      end.
Qed.

(** A query never refreshes: [rag_processing] makes no database fetch,
    no directory load and no rebuild, whatever its collaborators
    return, and the persisted index is the same after the query as
    before it, also when the query fails. *)
Theorem query_leaves_index : forall input (w : World) r w' tr,
  run (rag_processing input) w = (r, w', tr) ->
  Forall (fun en => refresh_call (fst (projT2 en)) = false) tr /\
  rebuilds tr = 0 /\
  w_index w' = w_index w.
Proof.
  intros input w r w' tr Hrun.
  destruct (Avoids_run _ _ (Avoids_rag_processing input) _ _ _ _ Hrun)
    as [Hall Hidx].
  split; [exact Hall|]. split; [|exact Hidx].
  clear - Hall. unfold rebuilds.
  induction Hall as [|en tr Hen Hall IH]; [reflexivity|].
  simpl. destruct en as [X [ev o]]. unfold is_rebuild. simpl in *.
  destruct ev; simpl in *; try discriminate Hen; exact IH.
Qed.

End QueryFrame.

Section QueryFrameWitnesses.

Lemma query_leaves_index_witness :
  let H := Demo.handles in
  let out := Demo.exec (rag_processing Demo.question) (Demo.world true false) in
  out = (fst (fst out), snd (fst out), snd out) /\
  Forall (fun en => refresh_call (fst (projT2 en)) = false) (snd out) /\
  rebuilds (snd out) = 0 /\
  w_index (snd (fst out)) = w_index (Demo.world true false).
Proof.
  intros H out.
  assert (Hrun : out = (fst (fst out), snd (fst out), snd out)) by reflexivity.
  split; [exact Hrun|].
  exact (query_leaves_index (C := Demo.collaborators)
           Demo.question (Demo.world true false) _ _ _ Hrun).
Defined.

End QueryFrameWitnesses.

(** ** The Slack handlers *)

Module SlackFacts.
Import Slack.

Lemma prefix_app : forall a b, String.prefix a (a ++ b) = true.
Proof.
  induction a as [|c a IH]; intros b; simpl; [now destruct b|].
  destruct (ascii_dec c c) as [_|Hne]; [apply IH | now elim Hne].
Qed.

Lemma prefix_split : forall a h,
  String.prefix a h = true -> exists b, h = (a ++ b)%string.
Proof.
  induction a as [|c a IH]; intros h Hp.
  - now exists h.
  - destruct h as [|d h]; [discriminate Hp|]. simpl in Hp.
    destruct (ascii_dec c d) as [->|_]; [|discriminate Hp].
    destruct (IH h Hp) as [b ->]. now exists b.
Qed.

Lemma contains_empty : forall needle,
  contains needle EmptyString = String.prefix needle EmptyString.
Proof. intros needle. unfold contains. apply orb_false_r. Qed.

Lemma contains_step : forall needle c hay,
  contains needle (String c hay)
  = String.prefix needle (String c hay) || contains needle hay.
Proof. reflexivity. Qed.

(** [contains] is Python's substring test. *)
Lemma contains_spec : forall needle hay,
  contains needle hay = true
  <-> exists a b, hay = (a ++ needle ++ b)%string.
Proof.
  intros needle hay. split.
  - induction hay as [|c hay IH]; intros Hc.
    + rewrite contains_empty in Hc. destruct (prefix_split _ _ Hc) as [b Hb].
      now exists EmptyString, b.
    + rewrite contains_step in Hc.
      apply orb_true_iff in Hc. destruct Hc as [Hp|Hc].
      * destruct (prefix_split _ _ Hp) as [b Hb]. now exists EmptyString, b.
      * destruct (IH Hc) as (a & b & ->). now exists (String c a), b.
  - intros (a & b & ->). induction a as [|c a IH].
    + change (EmptyString ++ needle ++ b)%string with (needle ++ b)%string.
      destruct (needle ++ b)%string as [|c s] eqn:E.
      * rewrite contains_empty, <- E. apply prefix_app.
      * rewrite contains_step, <- E, prefix_app. reflexivity.
    + change (String c a ++ needle ++ b)%string
        with (String c (a ++ needle ++ b))%string.
      rewrite contains_step, IH. apply orb_true_r.
Qed.

End SlackFacts.

Section SlackHandlers.
Import Slack.

Context {S : Side}.

Local Open Scope slack_scope.

(** A guarded block raises only what its apology raises. *)
Lemma guarded_block : forall (p : M unit) (intro : string) s r s',
  try_except p
    (fun e => logger ERROR (Text (intro ++ str_exn e)%string) ;;
              call (say apology None) (Say apology None)) s = (r, s') ->
  r = inr tt \/
  exists e calls0, r = inl e /\ s_calls s' = calls0 ++ [Say apology None (inl e)].
Proof.
  intros p intro s r s' Hrun. unfold try_except in Hrun.
  destruct (p s) as [[e|[]] s1].
  - unfold bind, logger, call in Hrun. simpl in Hrun.
    destruct (say apology None (s_env s1)) as [[e'|[]] env2];
      inversion Hrun; subst; [right | now left].
    exists e'. eexists. split; reflexivity.
  - inversion Hrun. now left.
Qed.

(** Neither handler lets an exception of its body out: it returns, or
    it raises what the apology [say] raised, and then that call is the
    last one. *)
Theorem handlers_fail_only_through_apology :
  forall environ body env r env' calls,
    exec (handle_message_events environ body) env = (r, env', calls) \/
    exec (handle_app_mention_events body) env = (r, env', calls) ->
    r = inr tt \/
    exists e calls0, r = inl e /\ calls = calls0 ++ [Say apology None (inl e)].
Proof.
  intros environ body env r env' calls [Hrun|Hrun];
    unfold exec, handle_message_events, handle_app_mention_events in Hrun;
    unfold bind at 1 in Hrun; unfold logger at 1 in Hrun;
    cbv beta iota in Hrun;
    match type of Hrun with
    | (let (_, _) := ?t in _) = _ => destruct t as [r0 s0] eqn:Hblock
    end;
    inversion Hrun; subst;
    destruct (guarded_block _ _ _ _ _ Hblock) as [Hr|(e & calls0 & He & Hc)];
    [now left | right; now exists e, calls0 | now left
     | right; now exists e, calls0].
Qed.

Ltac open_handler :=
  unfold exec, handle_message_events, handle_app_mention_events,
    bind, try_except, lift, logger, call, ret, getitem_dict;
  cbn [s_env s_calls app].

(** A channel message that does not name the bot is ignored: nothing is
    asked of the chain and nothing is said. *)
Theorem unaddressed_message_is_ignored :
  forall environ body d channel_type t env,
    PyDict.get body "event" = Some (ODict d) ->
    get (ODict d) "channel_type" = inr channel_type ->
    eq_str channel_type "im" = false ->
    get (ODict d) "text" = inr (OStr t) ->
    (forall a b, t <> (a ++ mention environ ++ b)%string) ->
    exec (handle_message_events environ body) env
    = (inr tt, env,
       [Logger INFO (TextObj "Received message: " (ODict body))]).
Proof.
  intros environ body d channel_type t env Hevent Hchannel Him Htext Hfree.
  assert (Hc : contains (mention environ) t = false).
  { destruct (contains (mention environ) t) eqn:Hc; [|reflexivity].
    apply SlackFacts.contains_spec in Hc. destruct Hc as (a & b & Hc).
    now elim (Hfree a b). }
  open_handler. rewrite Hevent.
  cbn [get] in *. injection Hchannel as Hchannel. injection Htext as Htext.
  rewrite Hchannel, Htext. unfold addressed. rewrite Him.
  cbn [py_in]. rewrite Hc. reflexivity.
Qed.

(** A channel message without a text (an edit, a deletion, a join) is
    answered with the apology: looking for the mention in [None]
    raises, the error is logged, and the chain is not asked. *)
Theorem textless_message_gets_apology :
  forall environ body d channel_type env,
    PyDict.get body "event" = Some (ODict d) ->
    get (ODict d) "channel_type" = inr channel_type ->
    eq_str channel_type "im" = false ->
    get (ODict d) "text" = inr ONone ->
    exists r env',
      say apology None env = (r, env') /\
      exec (handle_message_events environ body) env
      = (r, env',
         [Logger INFO (TextObj "Received message: " (ODict body));
          Logger ERROR (Text ("Error handling message: "
                              ++ str_exn (not_iterable ONone))%string);
          Say apology None r]).
Proof.
  intros environ body d channel_type env Hevent Hchannel Him Htext.
  destruct (say apology None env) as [r env'] eqn:Hsay.
  exists r, env'. split; [reflexivity|].
  open_handler. rewrite Hevent.
  cbn [get] in *. injection Hchannel as Hchannel. injection Htext as Htext.
  rewrite Hchannel, Htext. unfold addressed. rewrite Him.
  cbn [py_in s_env s_calls app]. rewrite Hsay. now destruct r as [e|[]].
Qed.

(** In a direct conversation every message goes to the chain, with or
    without a mention and whatever its text is, and the answer is said
    in the thread of the message. *)
Theorem direct_message_is_answered :
  forall environ body d channel_type text thread_ts env response env1 env2,
    PyDict.get body "event" = Some (ODict d) ->
    get (ODict d) "channel_type" = inr channel_type ->
    eq_str channel_type "im" = true ->
    get (ODict d) "text" = inr text ->
    get (ODict d) "ts" = inr thread_ts ->
    run_chain text env = (inr response, env1) ->
    say response (Some thread_ts) env1 = (inr tt, env2) ->
    exec (handle_message_events environ body) env
    = (inr tt, env2,
       [Logger INFO (TextObj "Received message: " (ODict body));
        Run_chain text (inr response);
        Say response (Some thread_ts) (inr tt)]).
Proof.
  intros environ body d channel_type text thread_ts env response env1 env2
         Hevent Hchannel Him Htext Hts Hchain Hsay.
  open_handler. rewrite Hevent.
  cbn [get] in *. injection Hchannel as Hchannel. injection Htext as Htext.
  injection Hts as Hts.
  rewrite Hchannel, Htext, Hts. unfold addressed. rewrite Him.
  cbn [s_env s_calls app]. rewrite Hchain.
  cbn [s_env s_calls app]. rewrite Hsay. reflexivity.
Qed.

(** A message that the message handler answers is answered by the
    mention handler in the same way: for two events with the same text
    and timestamp, both handlers make the same calls to the chain and
    to [say], with the same outcome; only their log records differ. *)
Theorem mention_is_answered_by_both_handlers :
  forall environ body1 body2 d1 d2 channel_type text env,
    PyDict.get body1 "event" = Some (ODict d1) ->
    PyDict.get body2 "event" = Some (ODict d2) ->
    get (ODict d1) "channel_type" = inr channel_type ->
    get (ODict d1) "text" = inr text ->
    get (ODict d2) "text" = inr text ->
    get (ODict d1) "ts" = get (ODict d2) "ts" ->
    addressed environ channel_type text = inr true ->
    let '(r1, e1, c1) := exec (handle_message_events environ body1) env in
    let '(r2, e2, c2) := exec (handle_app_mention_events body2) env in
    r1 = r2 /\ e1 = e2 /\
    filter (fun c => negb (is_logger c)) c1
    = filter (fun c => negb (is_logger c)) c2 /\
    exists rc, In (Run_chain text rc) c1.
Proof.
  intros environ body1 body2 d1 d2 channel_type text env
         He1 He2 Hchannel Ht1 Ht2 Hts Hhit.
  open_handler. rewrite He1, He2.
  cbn [get] in *. injection Hchannel as Hchannel.
  injection Ht1 as Ht1. injection Ht2 as Ht2. injection Hts as Hts.
  rewrite Hchannel, Ht1, Ht2, Hts, Hhit.
  cbn [s_env s_calls app].
  destruct (run_chain text env) as [[e|response] env1];
    cbn [s_env s_calls app].
  - destruct (say apology None env1) as [[e'|[]] env2]; cbn;
      repeat split; eauto.
  - destruct (say response _ env1) as [[e|[]] env2]; cbn [s_env s_calls app].
    + destruct (say apology None env2) as [[e'|[]] env3]; cbn;
        repeat split; eauto 6.
    + cbn. repeat split; eauto.
Qed.

End SlackHandlers.

Section SlackEndpoint.
Import Slack.

Context {S : Side}.

(** Every run of [slack_events] is one of the nine. *)
Lemma slack_events_run : forall request signature timestamp env r env' calls,
  exec (slack_events request signature timestamp) env = (r, env', calls) ->
  events_run request signature timestamp r calls.
Proof.
  intros request signature timestamp env r env' calls Hrun.
  unfold exec, slack_events, bind, call, lift, ret in Hrun.
  cbn [s_env s_calls app] in Hrun.
  destruct (request_body request env) as [[e|body] env1].
  { inversion Hrun; subst. constructor. }
  cbn [s_env s_calls app] in Hrun.
  destruct (is_valid body timestamp signature env1) as [[e|[|]] env2];
    cbn [s_env s_calls app negb] in Hrun.
  { inversion Hrun; subst. constructor. }
  2:{ inversion Hrun; subst. constructor. }
  destruct (request_json request env2) as [[e|data] env3];
    cbn [s_env s_calls app] in Hrun.
  { inversion Hrun; subst. constructor. }
  destruct (py_in "challenge" data) as [e|[|]] eqn:Hin.
  { inversion Hrun; subst. now constructor. }
  - cbn [s_env s_calls app] in Hrun.
    destruct (getitem data "challenge") as [e|challenge] eqn:Hget;
      inversion Hrun; subst.
    + now apply events_no_subscript.
    + now apply events_challenge.
  - cbn [s_env s_calls app] in Hrun.
    destruct (handler_handle request env3) as [[e|response] env4];
      cbn [s_env s_calls app] in Hrun; inversion Hrun; subst.
    + now apply events_dispatch_failed.
    + now apply events_dispatched.
Qed.

(** A request whose signature check returns [False] is answered with
    status 400 and goes no further: its body is not parsed and the Slack
    handler does not see it. *)
Theorem unverified_request_is_rejected :
  forall request signature timestamp env r env' calls body t s,
    exec (slack_events request signature timestamp) env = (r, env', calls) ->
    In (Is_valid body t s (inr false)) calls ->
    r = inr (JSON 400 [("error", OStr "invalid request")]) /\
    filter is_request_json calls = [] /\
    filter is_handler_handle calls = [].
Proof.
  intros request signature timestamp env r env' calls body t s Hrun Hin.
  apply slack_events_run in Hrun.
  destruct Hrun; simpl In in Hin;
    repeat (destruct Hin as [Hin|Hin]; [try discriminate Hin|]);
    try contradiction.
  repeat split.
Qed.

(** The Slack handler is reached only by a request whose signature
    check returned [True] and whose payload holds no ["challenge"]; it
    is called once, as the last call, and what it returns or raises is
    what the endpoint returns or raises. *)
Theorem handler_sees_verified_requests_only :
  forall request signature timestamp env r env' calls c,
    exec (slack_events request signature timestamp) env = (r, env', calls) ->
    In c calls -> is_handler_handle c = true ->
    exists body data o,
      calls = [Request_body request (inr body);
               Is_valid body timestamp signature (inr true);
               Request_json request (inr data);
               Handler_handle request o] /\
      c = Handler_handle request o /\
      py_in "challenge" data = inr false /\
      r = match o with
          | inl e => inl e
          | inr response => inr (Handled response)
          end.
Proof.
  intros request signature timestamp env r env' calls c Hrun Hin Hc.
  apply slack_events_run in Hrun.
  destruct Hrun; simpl In in Hin;
    repeat (destruct Hin as [Hin|Hin]; [subst c; try discriminate Hc|]);
    try contradiction.
  - exists body, data, (inl e). repeat split. assumption.
  - exists body, data, (inr response). repeat split. assumption.
Qed.

(** A verified payload that is a dictionary with a ["challenge"] is
    answered with that challenge, status 200, and is not dispatched. *)
Theorem challenge_is_echoed :
  forall request signature timestamp env r env' calls q d challenge,
    exec (slack_events request signature timestamp) env = (r, env', calls) ->
    In (Request_json q (inr (ODict d))) calls ->
    PyDict.get d "challenge" = Some challenge ->
    r = inr (JSON 200 [("challenge", challenge)]) /\
    filter is_handler_handle calls = [].
Proof.
  intros request signature timestamp env r env' calls q d challenge
         Hrun Hin Hget.
  apply slack_events_run in Hrun.
  destruct Hrun; simpl In in Hin;
    repeat (destruct Hin as [Hin|Hin]; [try discriminate Hin|]);
    try contradiction;
    injection Hin as _ Hdata; subst data;
    cbn [py_in getitem] in *; unfold getitem_dict in *; rewrite Hget in *;
    try discriminate.
  match goal with
  | Hc : inr _ = inr challenge0 |- _ => injection Hc as Hc; subst
  end.
  split; reflexivity.
Qed.

End SlackEndpoint.

Section SlackWitnesses.
Import Slack.

Let event (channel_type text : PyObj) : PyDict.dict PyObj :=
  [("type", OStr "message"); ("user", OStr "U7");
   ("text", text); ("channel_type", channel_type);
   ("ts", OStr "1700000000.000100")].

Lemma handlers_fail_only_through_apology_witness :
  let S := demo in
  let bot := mkBot false true ONone [] in
  let out := exec (handle_app_mention_events textless) bot in
  (exec (handle_message_events environ textless) bot
   = (fst (fst out), snd (fst out), snd out) \/
   out = (fst (fst out), snd (fst out), snd out)) /\
  (fst (fst out) = inr tt \/
   exists e calls0,
     fst (fst out) = inl e /\ snd out = calls0 ++ [Say apology None (inl e)]).
Proof.
  intros S bot out.
  assert (Hrun : exec (handle_message_events environ textless) bot
                 = (fst (fst out), snd (fst out), snd out) \/
                 out = (fst (fst out), snd (fst out), snd out))
    by (right; reflexivity).
  split; [exact Hrun|].
  exact (handlers_fail_only_through_apology (S := demo)
           environ textless bot _ _ _ Hrun).
Defined.

Lemma unaddressed_message_is_ignored_witness :
  let S := demo in
  let bot := mkBot true true ONone [] in
  let body := message (OStr "channel") (OStr "hello there") in
  let d := event (OStr "channel") (OStr "hello there") in
  PyDict.get body "event" = Some (ODict d) /\
  get (ODict d) "channel_type" = inr (OStr "channel") /\
  eq_str (OStr "channel") "im" = false /\
  get (ODict d) "text" = inr (OStr "hello there") /\
  (forall a b, "hello there" <> (a ++ mention environ ++ b)%string) /\
  exec (handle_message_events environ body) bot
  = (inr tt, bot, [Logger INFO (TextObj "Received message: " (ODict body))]).
Proof.
  intros S bot body d.
  assert (Hfree : forall a b,
             "hello there" <> (a ++ mention environ ++ b)%string).
  { intros a b Heq.
    assert (Hc : contains (mention environ) "hello there" = true)
      by (apply SlackFacts.contains_spec; now exists a, b).
    vm_compute in Hc. discriminate Hc. }
  split; [reflexivity|]. split; [reflexivity|]. split; [reflexivity|].
  split; [reflexivity|]. split; [exact Hfree|].
  exact (unaddressed_message_is_ignored (S := demo) environ body d
           (OStr "channel") "hello there" bot
           eq_refl eq_refl eq_refl eq_refl Hfree).
Defined.

Lemma textless_message_gets_apology_witness :
  let S := demo in
  let bot := mkBot true true ONone [] in
  let d := [("type", OStr "message"); ("subtype", OStr "message_changed");
            ("channel_type", OStr "channel");
            ("ts", OStr "1700000000.000200")] in
  PyDict.get textless "event" = Some (ODict d) /\
  get (ODict d) "channel_type" = inr (OStr "channel") /\
  eq_str (OStr "channel") "im" = false /\
  get (ODict d) "text" = inr ONone /\
  exists r env',
    say apology None bot = (r, env') /\
    exec (handle_message_events environ textless) bot
    = (r, env',
       [Logger INFO (TextObj "Received message: " (ODict textless));
        Logger ERROR (Text ("Error handling message: "
                            ++ str_exn (not_iterable ONone))%string);
        Say apology None r]).
Proof.
  intros S bot d.
  split; [reflexivity|]. split; [reflexivity|]. split; [reflexivity|].
  split; [reflexivity|].
  exact (textless_message_gets_apology (S := demo) environ textless d
           (OStr "channel") bot eq_refl eq_refl eq_refl eq_refl).
Defined.

Lemma direct_message_is_answered_witness :
  let S := demo in
  let bot := mkBot true true ONone [] in
  let body := message (OStr "im") ONone in
  let d := event (OStr "im") ONone in
  let ts := OStr "1700000000.000100" in
  let bot2 := mkBot true true ONone [(OStr "an answer", Some ts)] in
  PyDict.get body "event" = Some (ODict d) /\
  get (ODict d) "channel_type" = inr (OStr "im") /\
  eq_str (OStr "im") "im" = true /\
  get (ODict d) "text" = inr ONone /\
  get (ODict d) "ts" = inr ts /\
  run_chain ONone bot = (inr (OStr "an answer"), bot) /\
  say (OStr "an answer") (Some ts) bot = (inr tt, bot2) /\
  exec (handle_message_events environ body) bot
  = (inr tt, bot2,
     [Logger INFO (TextObj "Received message: " (ODict body));
      Run_chain ONone (inr (OStr "an answer"));
      Say (OStr "an answer") (Some ts) (inr tt)]).
Proof.
  intros S bot body d ts bot2.
  do 7 (split; [reflexivity|]).
  exact (direct_message_is_answered (S := demo) environ body d
           (OStr "im") ONone ts bot (OStr "an answer") bot bot2
           eq_refl eq_refl eq_refl eq_refl eq_refl eq_refl eq_refl).
Defined.

Lemma mention_is_answered_by_both_handlers_witness :
  let S := demo in
  let bot := mkBot true true ONone [] in
  let text := OStr "hello <@U1> there" in
  let body := message (OStr "channel") text in
  let d := event (OStr "channel") text in
  PyDict.get body "event" = Some (ODict d) /\
  get (ODict d) "channel_type" = inr (OStr "channel") /\
  get (ODict d) "text" = inr text /\
  get (ODict d) "ts" = get (ODict d) "ts" /\
  addressed environ (OStr "channel") text = inr true /\
  let '(r1, e1, c1) := exec (handle_message_events environ body) bot in
  let '(r2, e2, c2) := exec (handle_app_mention_events body) bot in
  r1 = r2 /\ e1 = e2 /\
  filter (fun c => negb (is_logger c)) c1
  = filter (fun c => negb (is_logger c)) c2 /\
  exists rc, In (Run_chain text rc) c1.
Proof.
  intros S bot text body d.
  do 5 (split; [reflexivity|]).
  exact (mention_is_answered_by_both_handlers (S := demo) environ body body
           d d (OStr "channel") text bot
           eq_refl eq_refl eq_refl eq_refl eq_refl eq_refl eq_refl).
Defined.

Lemma unverified_request_is_rejected_witness :
  let S := demo in
  let bot := mkBot true false ONone [] in
  let out := exec (slack_events (tt : Request) None None) bot in
  out = (fst (fst out), snd (fst out), snd out) /\
  In (Is_valid "raw body" None None (inr false)) (snd out) /\
  fst (fst out) = inr (JSON 400 [("error", OStr "invalid request")]) /\
  filter is_request_json (snd out) = [] /\
  filter is_handler_handle (snd out) = [].
Proof.
  intros S bot out.
  assert (Hrun : out = (fst (fst out), snd (fst out), snd out)) by reflexivity.
  assert (Hin : In (Is_valid "raw body" None None (inr false)) (snd out))
    by (right; left; reflexivity).
  split; [exact Hrun|]. split; [exact Hin|].
  exact (unverified_request_is_rejected (S := demo) tt None None bot _ _ _
           "raw body" None None Hrun Hin).
Defined.

Lemma handler_sees_verified_requests_only_witness :
  let S := demo in
  let data := ODict [("event", ONone)] in
  let bot := mkBot true true data [] in
  let out := exec (slack_events (tt : Request) (Some "v0=ab") (Some "17")) bot in
  let c := Handler_handle (tt : Request) (inr ("handled" : Response)) in
  out = (fst (fst out), snd (fst out), snd out) /\
  In c (snd out) /\
  is_handler_handle c = true /\
  exists body data o,
    snd out = [Request_body tt (inr body);
               Is_valid body (Some "17") (Some "v0=ab") (inr true);
               Request_json tt (inr data);
               Handler_handle tt o] /\
    c = Handler_handle tt o /\
    py_in "challenge" data = inr false /\
    fst (fst out) = match o with
                    | inl e => inl e
                    | inr response => inr (Handled response)
                    end.
Proof.
  intros S data bot out c.
  assert (Hrun : out = (fst (fst out), snd (fst out), snd out)) by reflexivity.
  assert (Hin : In c (snd out)) by (do 3 right; left; reflexivity).
  split; [exact Hrun|]. split; [exact Hin|]. split; [reflexivity|].
  exact (handler_sees_verified_requests_only (S := demo) tt (Some "v0=ab")
           (Some "17") bot _ _ _ c Hrun Hin eq_refl).
Defined.

Lemma challenge_is_echoed_witness :
  let S := demo in
  let d := [("type", OStr "url_verification"); ("challenge", OStr "xyz")] in
  let bot := mkBot true true (ODict d) [] in
  let out := exec (slack_events (tt : Request) None None) bot in
  out = (fst (fst out), snd (fst out), snd out) /\
  In (Request_json (tt : Request) (inr (ODict d))) (snd out) /\
  PyDict.get d "challenge" = Some (OStr "xyz") /\
  fst (fst out) = inr (JSON 200 [("challenge", OStr "xyz")]) /\
  filter is_handler_handle (snd out) = [].
Proof.
  intros S d bot out.
  assert (Hrun : out = (fst (fst out), snd (fst out), snd out)) by reflexivity.
  assert (Hin : In (Request_json (tt : Request) (inr (ODict d))) (snd out))
    by (do 2 right; left; reflexivity).
  split; [exact Hrun|]. split; [exact Hin|]. split; [reflexivity|].
  exact (challenge_is_echoed (S := demo) tt None None bot _ _ _ tt d
           (OStr "xyz") Hrun Hin eq_refl).
Defined.

End SlackWitnesses.

(** ** The text a query returns *)

Section ResponseText.

Context {H : Handles} {C : Collaborators H}.

(** The text that [rag_processing] returns is printable ASCII, whatever
    characters the question and the answer hold. *)
Theorem response_text_is_printable_ascii :
  forall input (w : World) json w' tr,
    run (rag_processing input) w = (inr json, w', tr) ->
    printable_ascii json = true.
Proof.
  intros input w json w' tr Hrun.
  apply rag_processing_run in Hrun.
  remember (inr json) as r eqn:Hr.
  destruct Hrun; try discriminate Hr.
  injection Hr as <-. apply PyJsonMore.dumps_printable_ascii.
Qed.

Lemma rag_run_answered : forall input json tr,
  rag_run input (inr json) tr ->
  exists answer client,
    json = PyJson.dumps [("transcription_status", input);
                         ("llm_answer_status", answer)] /\
    In (entry (Push_data_to_database client input answer) (inr tt)) tr.
Proof.
  intros input json tr Hrun. remember (inr json) as r eqn:Hr.
  destruct Hrun; try discriminate Hr.
  exists answer, client. split; [congruence|].
  apply in_or_app; right; right; apply in_or_app; right; now left.
Qed.

(** The returned text determines the question and the answer: two
    queries that return the same text had the same input, and pushed
    the same answer to the storage collaborator. *)
Theorem response_text_determines_question_and_answer :
  forall input1 input2 (w1 w2 : World) json w1' w2' tr1 tr2,
    run (rag_processing input1) w1 = (inr json, w1', tr1) ->
    run (rag_processing input2) w2 = (inr json, w2', tr2) ->
    input1 = input2 /\
    exists answer client1 client2,
      json = PyJson.dumps [("transcription_status", input1);
                           ("llm_answer_status", answer)] /\
      In (entry (Push_data_to_database client1 input1 answer) (inr tt)) tr1 /\
      In (entry (Push_data_to_database client2 input2 answer) (inr tt)) tr2.
Proof.
  intros input1 input2 w1 w2 json w1' w2' tr1 tr2 Hrun1 Hrun2.
  apply rag_processing_run, rag_run_answered in Hrun1.
  apply rag_processing_run, rag_run_answered in Hrun2.
  destruct Hrun1 as (answer1 & client1 & Hj1 & Hp1).
  destruct Hrun2 as (answer2 & client2 & Hj2 & Hp2).
  assert (Hd : [("transcription_status", input1);
                ("llm_answer_status", answer1)]
               = [("transcription_status", input2);
                  ("llm_answer_status", answer2)])
    by (apply PyJsonMore.dumps_injective; congruence).
  injection Hd as Hinput Hanswer. subst input2 answer2.
  split; [reflexivity|].
  exists answer1, client1, client2. auto.
Qed.

End ResponseText.

Section ResponseTextWitnesses.

Lemma response_text_is_printable_ascii_witness :
  let H := Demo.handles in
  let out := Demo.exec (rag_processing Demo.question) (Demo.world true true) in
  let json := PyJson.dumps [("transcription_status", Demo.question);
                            ("llm_answer_status", Demo.answer)] in
  out = (inr json, snd (fst out), snd out) /\
  printable_ascii json = true.
Proof.
  intros H out json.
  assert (Hrun : out = (inr json, snd (fst out), snd out)) by reflexivity.
  split; [exact Hrun|].
  exact (response_text_is_printable_ascii (C := Demo.collaborators)
           Demo.question (Demo.world true true) json _ _ Hrun).
Defined.

Lemma response_text_determines_question_and_answer_witness :
  let H := Demo.handles in
  let out := Demo.exec (rag_processing Demo.question) (Demo.world true true) in
  let json := PyJson.dumps [("transcription_status", Demo.question);
                            ("llm_answer_status", Demo.answer)] in
  out = (inr json, snd (fst out), snd out) /\
  Demo.question = Demo.question /\
  exists answer (client1 client2 : Client),
    json = PyJson.dumps [("transcription_status", Demo.question);
                         ("llm_answer_status", answer)] /\
    In (entry (Push_data_to_database client1 Demo.question answer) (inr tt))
       (snd out) /\
    In (entry (Push_data_to_database client2 Demo.question answer) (inr tt))
       (snd out).
Proof.
  intros H out json.
  assert (Hrun : out = (inr json, snd (fst out), snd out)) by reflexivity.
  split; [exact Hrun|].
  exact (response_text_determines_question_and_answer
           (C := Demo.collaborators)
           Demo.question Demo.question (Demo.world true true)
           (Demo.world true true) json _ _ _ _ Hrun Hrun).
Defined.

End ResponseTextWitnesses.
